(** * prom-nodejs: the instrumented Express service (app.js)

    A shallow embedding of the service's request pipeline: the metrics
    middleware, the route handlers (/, /metrics, /redis-test, /mongo-test,
    /health, /crash), the startup code and the SIGTERM handler.

    The JavaScript program is modelled by explicit state passing.  A
    computation takes the conditions of the outside world during one
    request ([Env]: which dependency command fails, how long I/O takes)
    and the process state ([World]: the two dependency handles, the data
    they hold, the metrics registry, the console, the trace of calls) and
    ends in one of four ways: it returns, it throws, the process exits,
    or it waits for ever on a promise that never settles. *)

From Stdlib Require Import ZArith Ascii String DecimalString DecimalPos.
From stdpp Require Import base option list strings gmap.

Local Open Scope string_scope.
Local Open Scope Z_scope.

(** ** JavaScript numbers and strings

    Strings are byte strings (UTF-8, as Redis stores them and node-redis
    decodes them).  The numbers the service computes with are visit
    counts: integers or NaN.  [JInt z] is the double whose value is the
    integer [z]; every operation rounds its exact result to a double with
    [round_double], which is the identity up to 2^53.  The model covers
    magnitudes below 10^21, where [Number_toString] is the plain decimal
    expansion. *)

Inductive jsnum :=
  | JNaN
  | JInt (z : Z).

Definition MAX_EXACT : Z := 2 ^ 53.

(** Round an integer to the nearest double, ties to even. *)
Definition round_double (z : Z) : Z :=
  let a := Z.abs z in
  if a <=? MAX_EXACT then z
  else
    let ulp := 2 ^ (Z.log2 a - 52) in
    let q := a / ulp in
    let r := a mod ulp in
    let q' := if 2 * r <? ulp then q
              else if ulp <? 2 * r then q + 1
              else if Z.even q then q else q + 1 in
    Z.sgn z * (q' * ulp).

(** [x + 1] on numbers. *)
Definition js_add1 (x : jsnum) : jsnum :=
  match x with
  | JNaN => JNaN
  | JInt z => JInt (round_double (z + 1))
  end.

(** [Number.prototype.toString()], which node-redis applies to a numeric
    argument of SET. *)
Definition Number_toString (x : jsnum) : string :=
  match x with
  | JNaN => "NaN"
  | JInt z => NilZero.string_of_int (Z.to_int z)
  end.

Definition code (c : ascii) : Z := Z.of_N (N_of_ascii c).

(** The value of a character as a digit in bases up to 36. *)
Definition digit_value (c : ascii) : option Z :=
  let n := code c in
  if (48 <=? n) && (n <=? 57) then Some (n - 48)
  else if (97 <=? n) && (n <=? 122) then Some (n - 87)
  else if (65 <=? n) && (n <=? 90) then Some (n - 55)
  else None.

Definition radix_digit (R : Z) (c : ascii) : option Z :=
  match digit_value c with
  | Some d => if d <? R then Some d else None
  | None => None
  end.

(** One-byte white space and line terminators: TAB, LF, VT, FF, CR, SP. *)
Definition ws1 (a : Z) : bool :=
  ((9 <=? a) && (a <=? 13)) || (a =? 32).

(** U+00A0 in UTF-8. *)
Definition ws2 (a b : Z) : bool := (a =? 194) && (b =? 160).

(** U+1680, U+2000..U+200A, U+2028, U+2029, U+202F, U+205F, U+3000 and
    U+FEFF in UTF-8. *)
Definition ws3 (a b c : Z) : bool :=
  ((a =? 225) && (b =? 154) && (c =? 128))
  || ((a =? 226) && (b =? 128)
      && (((128 <=? c) && (c <=? 138)) || (c =? 168) || (c =? 169) || (c =? 175)))
  || ((a =? 226) && (b =? 129) && (c =? 159))
  || ((a =? 227) && (b =? 128) && (c =? 128))
  || ((a =? 239) && (b =? 187) && (c =? 191)).

(** Drop leading white space (the first step of parseInt). *)
Fixpoint trim_start (s : string) : string :=
  match s with
  | String c1 s1 =>
      if ws1 (code c1) then trim_start s1
      else match s1 with
           | String c2 s2 =>
               if ws2 (code c1) (code c2) then trim_start s2
               else match s2 with
                    | String c3 s3 =>
                        if ws3 (code c1) (code c2) (code c3) then trim_start s3
                        else s
                    | EmptyString => s
                    end
           | EmptyString => s
           end
  | EmptyString => s
  end.

(** The integer denoted by the longest prefix of base-[R] digits,
    continuing from [acc]. *)
Fixpoint digits_prefix (R : Z) (s : string) (acc : Z) : Z :=
  match s with
  | String c s' =>
      match radix_digit R c with
      | Some d => digits_prefix R s' (acc * R + d)
      | None => acc
      end
  | EmptyString => acc
  end.

Definition parse_digits (R : Z) (sign : Z) (s : string) : jsnum :=
  match s with
  | String c _ =>
      match radix_digit R c with
      | Some _ => JInt (round_double (sign * digits_prefix R s 0))
      | None => JNaN
      end
  | EmptyString => JNaN
  end.

(** After the sign: a 0x or 0X prefix selects base 16. *)
Definition parse_unsigned (sign : Z) (s : string) : jsnum :=
  match s with
  | String "0" (String "x" s') => parse_digits 16 sign s'
  | String "0" (String "X" s') => parse_digits 16 sign s'
  | _ => parse_digits 10 sign s
  end.

(** [parseInt(string)] with no radix argument. *)
Definition parseInt_string (s : string) : jsnum :=
  match trim_start s with
  | String "-" s' => parse_unsigned (-1) s'
  | String "+" s' => parse_unsigned 1 s'
  | s' => parse_unsigned 1 s'
  end.

(** A value that is a string or a number, such as [currentCount]. *)
Inductive StrOrNum :=
  | IsStr (s : string)
  | IsNum (n : jsnum).

(** [reply || d] for a reply that is a string or null: null and the empty
    string are falsy. *)
Definition or_default (reply : option string) (d : jsnum) : StrOrNum :=
  match reply with
  | Some (String c s) => IsStr (String c s)
  | Some EmptyString => IsNum d
  | None => IsNum d
  end.

(** [parseInt(v)]: the argument is first converted to a string. *)
Definition parseInt (v : StrOrNum) : jsnum :=
  match v with
  | IsStr s => parseInt_string s
  | IsNum n => parseInt_string (Number_toString n)
  end.

(** ** Values, requests and responses *)

(** The JavaScript values that occur in documents and JSON bodies. *)
Unset Elimination Schemes.
Inductive jsval :=
  | VUndefined
  | VNull
  | VStr (s : string)
  | VNum (n : jsnum)
  | VDate (t : Z)                 (* new Date() *)
  | VIso (t : Z)                  (* new Date().toISOString() *)
  | VObjectId (n : nat)
  | VObj (fields : list (string * jsval)).
Set Elimination Schemes.

(** Property lookup on an object literal. *)
Fixpoint field (k : string) (fs : list (string * jsval)) : option jsval :=
  match fs with
  | [] => None
  | (k', v) :: fs' => if String.eqb k k' then Some v else field k fs'
  end.

Record Error := { name : string; message : string }.

Definition ClientClosedError : Error :=
  {| name := "ClientClosedError"; message := "The client is closed" |}.

(** connect() on a client whose socket is already open. *)
Definition SocketAlreadyOpened : Error :=
  {| name := "Error"; message := "Socket already opened" |}.

(** An operation on a MongoClient whose connect() has failed. *)
Definition MongoNotConnected : Error :=
  {| name := "MongoServerSelectionError"; message := "Server selection timed out" |}.

(** A console line: a message, or a message followed by an error object,
    as console.error(message, error) prints it. *)
Inductive LogEntry :=
  | Line (s : string)
  | ErrorLine (s : string) (e : Error).
Coercion Line : string >-> LogEntry.
#[local] Arguments cons {A} & _ _.

(** Reading a property of [undefined]. *)
Definition TypeError_undefined (prop : string) : Error :=
  {| name := "TypeError";
     message := "Cannot read properties of undefined (reading '" +:+ prop +:+ "')" |}.

Record Request := {
  method : string;
  url : string;                   (* the request target, query string included *)
  ip : string;
  user_agent : option string;     (* req.get('User-Agent') *)
}.

(** Label values of the two metrics: method, route, status_code. *)
Definition Labels : Type := string * string * Z.

Record Registry := {
  httpRequestCount : gmap Labels nat;
  httpRequestDurationMicroseconds : list (Labels * Z);   (* observations, oldest first *)
}.

Inductive Body :=
  | Text (s : string)
  | Json (v : jsval)
  | Exposition (r : Registry).    (* client.register.metrics() *)

Record Response := { statusCode : Z; body : Body }.

(** ** The process state *)

(** Calls that leave the process, in the order they are made. *)
Inductive Call :=
  | RedisConnect
  | RedisGet (k : string)
  | RedisSet (k v : string)
  | RedisPing
  | RedisQuit
  | MongoConnect
  | MongoInsertOne (coll : string) (doc : list (string * jsval))
  | MongoCountDocuments (coll : string)
  | MongoPing
  | MongoClose
  | ServerClose
  | Send (r : Response).

(** [redisClient] and the keys of the Redis server.  The client is
    open from the moment connect() is called until quit() is called; it
    is ready while its connection is established.  Commands given to a
    client that is open but not ready are queued until it is. *)
Record Redis := {
  isOpen : bool;
  isReady : bool;
  data : gmap string string;
}.

(** The module variables [mongoClient] and [db] (undefined until
    connectDatabases assigns them), whether the client's connect() has
    succeeded, and the visits collection. *)
Record Mongo := {
  mongoClient : bool;
  connected : bool;
  db : bool;
  visits : list (list (string * jsval));
  next_oid : nat;
}.

(** The HTTP listener.  [in_flight] counts the requests of other clients
    that are open and stay open while the handler at hand runs;
    [close_pending] says that the callback given to server.close has not
    run yet. *)
Record Server := {
  listening : bool;
  in_flight : nat;
  close_pending : bool;
}.

Record World := {
  clock : Z;
  redis : Redis;
  mongo : Mongo;
  registry : Registry;
  server : Server;
  console : list LogEntry;
  calls : list Call;
}.

(** What the outside world does while one request (or signal) is
    handled: the time one I/O round trip takes, per command the error
    it is rejected with, if any, and the visits that other requests
    insert between this request's insert and its count.  The last three
    fields are the behaviour of the metrics library. *)
Record Env := {
  io_latency : Z;
  concurrent_visits : list (list (string * jsval));
  redis_connect_fault : option Error;
  redis_get_fault : option Error;
  redis_set_fault : option Error;
  redis_ping_fault : option Error;
  redis_quit_fault : option Error;
  mongo_connect_fault : option Error;
  mongo_insert_fault : option Error;
  mongo_count_fault : option Error;
  mongo_ping_fault : option Error;
  mongo_close_fault : option Error;
  startTimer_fault : option Error;
  inc_fault : option Error;
  observe_fault : option Error;
}.

Definition with_clock (t : Z) (w : World) : World :=
  {| clock := t; redis := redis w; mongo := mongo w; registry := registry w;
     server := server w; console := console w; calls := calls w |}.
Definition with_redis (r : Redis) (w : World) : World :=
  {| clock := clock w; redis := r; mongo := mongo w; registry := registry w;
     server := server w; console := console w; calls := calls w |}.
Definition with_mongo (m : Mongo) (w : World) : World :=
  {| clock := clock w; redis := redis w; mongo := m; registry := registry w;
     server := server w; console := console w; calls := calls w |}.
Definition with_registry (r : Registry) (w : World) : World :=
  {| clock := clock w; redis := redis w; mongo := mongo w; registry := r;
     server := server w; console := console w; calls := calls w |}.
Definition with_server (s : Server) (w : World) : World :=
  {| clock := clock w; redis := redis w; mongo := mongo w; registry := registry w;
     server := s; console := console w; calls := calls w |}.
Definition with_console (c : list LogEntry) (w : World) : World :=
  {| clock := clock w; redis := redis w; mongo := mongo w; registry := registry w;
     server := server w; console := c; calls := calls w |}.
Definition with_calls (c : list Call) (w : World) : World :=
  {| clock := clock w; redis := redis w; mongo := mongo w; registry := registry w;
     server := server w; console := console w; calls := c |}.

Definition set_isOpen (b : bool) (r : Redis) : Redis :=
  {| isOpen := b; isReady := isReady r; data := data r |}.
Definition set_isReady (b : bool) (r : Redis) : Redis :=
  {| isOpen := isOpen r; isReady := b; data := data r |}.
Definition set_data (d : gmap string string) (r : Redis) : Redis :=
  {| isOpen := isOpen r; isReady := isReady r; data := d |}.
Definition set_mongoClient (b : bool) (m : Mongo) : Mongo :=
  {| mongoClient := b; connected := connected m; db := db m;
     visits := visits m; next_oid := next_oid m |}.
Definition set_connected (b : bool) (m : Mongo) : Mongo :=
  {| mongoClient := mongoClient m; connected := b; db := db m;
     visits := visits m; next_oid := next_oid m |}.
Definition set_db (b : bool) (m : Mongo) : Mongo :=
  {| mongoClient := mongoClient m; connected := connected m; db := b;
     visits := visits m; next_oid := next_oid m |}.
Definition set_visits (v : list (list (string * jsval))) (m : Mongo) : Mongo :=
  {| mongoClient := mongoClient m; connected := connected m; db := db m;
     visits := v; next_oid := next_oid m |}.
Definition set_next_oid (n : nat) (m : Mongo) : Mongo :=
  {| mongoClient := mongoClient m; connected := connected m; db := db m;
     visits := visits m; next_oid := n |}.

(** ** Computations *)

Inductive Outcome (A : Type) :=
  | Ok (a : A)
  | Throw (e : Error)
  | Exit (code : Z)             (* process.exit(code): nothing runs after it *)
  | Pending.                    (* suspended at an await that never resumes *)
Arguments Ok {A} a.
Arguments Throw {A} e.
Arguments Exit {A} code.
Arguments Pending {A}.

Definition M (A : Type) : Type := Env -> World -> Outcome A * World.

#[export] Instance M_ret : MRet M := fun A a _ w => (Ok a, w).
#[export] Instance M_bind : MBind M := fun A B k m env w =>
  match m env w with
  | (Ok a, w') => k a env w'
  | (Throw e, w') => (Throw e, w')
  | (Exit c, w') => (Exit c, w')
  | (Pending, w') => (Pending, w')
  end.

Definition throw {A} (e : Error) : M A := fun _ w => (Throw e, w).
Definition process_exit {A} (c : Z) : M A := fun _ w => (Exit c, w).

(** A promise that never settles. *)
Definition never_settles {A} : M A := fun _ w => (Pending, w).

(** try { body } catch (error) { handler } *)
Definition try_catch {A} (body : M A) (handler : Error -> M A) : M A :=
  fun env w =>
    match body env w with
    | (Throw e, w') => handler e env w'
    | r => r
    end.

Definition get_world : M World := fun _ w => (Ok w, w).
Definition get_env : M Env := fun env w => (Ok env, w).
Definition modify (f : World -> World) : M unit := fun _ w => (Ok tt, f w).

(** Reject with the error the outside world has chosen, if any. *)
Definition fault (f : Env -> option Error) : M unit :=
  fun env w => match f env with
               | Some e => (Throw e, w)
               | None => (Ok tt, w)
               end.

Definition trace (c : Call) : M unit :=
  modify (fun w => with_calls (calls w ++ [c]) w).
Definition console_log (s : string) : M unit :=
  modify (fun w => with_console (console w ++ [Line s]) w).
Definition console_error (s : string) : M unit := console_log s.
(** console.error(message, error) *)
Definition console_error_with (s : string) (e : Error) : M unit :=
  modify (fun w => with_console (console w ++ [ErrorLine s e]) w).
Definition Date_now : M Z := fun _ w => (Ok (clock w), w).

(** One turn of the event loop while the caller is suspended: time
    passes, and the close callback of the listener runs once no
    connection is left. *)
Definition event_loop_turn (env : Env) (w : World) : World :=
  let w1 := with_clock (clock w + io_latency env) w in
  if close_pending (server w1) && (in_flight (server w1) =? 0)%nat then
    with_console (console w1 ++ [Line "HTTP server closed"])
      (with_server {| listening := listening (server w1);
                      in_flight := in_flight (server w1);
                      close_pending := false |} w1)
  else w1.

(** [await p]: the promise settles, then the caller resumes. *)
Definition await {A} (p : M A) : M A :=
  fun env w => let (r, w') := p env w in (r, event_loop_turn env w').

(** ** The dependency clients (node-redis and the MongoDB driver)

    A Redis command on a client that is not open is rejected with
    ClientClosedError.  On a client that is open but not ready it is
    queued, and its promise does not settle while the client stays so.
    On a ready client it is rejected when the server answers it with an
    error, and else has its effect.  The loss of an established
    connection is not a rejection and is left out: the client reports it
    with an 'error' event, for which app.js registers no listener. *)

Definition redis_command (c : Call) (f : Env -> option Error) : M unit :=
  trace c;;
  w ← get_world;
  if isOpen (redis w)
  then if isReady (redis w) then fault f else never_settles
  else throw ClientClosedError.

(** connect(): the client is open as soon as it is called, and ready
    once the connection is established.  With no 'error' listener on the
    client (app.js registers none) a failed attempt rejects the promise
    and ends the retries: the client stays open and not ready. *)
Definition redisClient_connect : M unit :=
  trace RedisConnect;;
  w ← get_world;
  if isOpen (redis w) then throw SocketAlreadyOpened
  else
    modify (fun w => with_redis (set_isOpen true (redis w)) w);;
    fault redis_connect_fault;;
    modify (fun w => with_redis (set_isReady true (redis w)) w).

Definition redisClient_get (k : string) : M (option string) :=
  redis_command (RedisGet k) redis_get_fault;;
  w ← get_world;
  mret (data (redis w) !! k).

(** SET with a number as value sends [value.toString()]. *)
Definition redisClient_set (k : string) (v : jsnum) : M unit :=
  redis_command (RedisSet k (Number_toString v)) redis_set_fault;;
  modify (fun w => with_redis
            (set_data (<[k := Number_toString v]> (data (redis w))) (redis w)) w).

Definition redisClient_ping : M unit :=
  redis_command RedisPing redis_ping_fault.

(** quit(): rejected on a closed client; else the client is marked
    closed at once and QUIT is sent like any command (queued for ever on
    a client that is not ready); the connection ends when QUIT is
    answered. *)
Definition redisClient_quit : M unit :=
  trace RedisQuit;;
  w ← get_world;
  if isOpen (redis w) then
    modify (fun w => with_redis (set_isOpen false (redis w)) w);;
    (if isReady (redis w)
     then fault redis_quit_fault;;
          modify (fun w => with_redis (set_isReady false (redis w)) w)
     else never_settles)
  else throw ClientClosedError.

(** mongoClient = new MongoClient(MONGO_URL) *)
Definition new_MongoClient : M unit :=
  modify (fun w => with_mongo (set_mongoClient true (mongo w)) w).

Definition mongoClient_connect : M unit :=
  trace MongoConnect;;
  fault mongo_connect_fault;;
  modify (fun w => with_mongo (set_connected true (mongo w)) w).

(** db = mongoClient.db(MONGO_DB_NAME) *)
Definition assign_db : M unit :=
  modify (fun w => with_mongo (set_db true (mongo w)) w).

(** db.collection(name): a TypeError while [db] is undefined. *)
Definition db_collection (coll : string) : M string :=
  w ← get_world;
  if db (mongo w) then mret coll else throw (TypeError_undefined "collection").

(** What the driver stores for a property: undefined becomes null. *)
Definition bson_field (f : string * jsval) : string * jsval :=
  match f with
  | (k, VUndefined) => (k, VNull)
  | _ => f
  end.

(** collection.insertOne(doc): stores the document under a fresh id and
    returns that id. *)
Definition insertOne (coll : string) (doc : list (string * jsval)) : M nat :=
  trace (MongoInsertOne coll doc);;
  fault mongo_insert_fault;;
  w ← get_world;
  let id := next_oid (mongo w) in
  modify (fun w => with_mongo
            (set_next_oid (S id)
               (set_visits (visits (mongo w)
                            ++ [(map bson_field doc ++ [("_id", VObjectId id)])%list])%list
                  (mongo w))) w);;
  mret id.

(** collection.countDocuments(): the server counts the collection as it
    is when the command runs there, with the visits other requests have
    inserted in the meantime. *)
Definition countDocuments (coll : string) : M nat :=
  trace (MongoCountDocuments coll);;
  fault mongo_count_fault;;
  env ← get_env;
  modify (fun w => with_mongo
            (set_visits (visits (mongo w) ++ concurrent_visits env)%list (mongo w)) w);;
  w ← get_world;
  mret (length (visits (mongo w))).

(** mongoClient.db().admin().ping(): a TypeError while [mongoClient] is
    undefined; rejected on a client whose connect() has failed. *)
Definition mongoClient_admin_ping : M unit :=
  w ← get_world;
  if mongoClient (mongo w)
  then trace MongoPing;;
       (if connected (mongo w) then fault mongo_ping_fault else throw MongoNotConnected)
  else throw (TypeError_undefined "db").

Definition mongoClient_close : M unit :=
  trace MongoClose;;
  fault mongo_close_fault;;
  modify (fun w => with_mongo (set_connected false (mongo w)) w).

(** ** The metrics library (prom-client) *)

(** httpRequestDurationMicroseconds.startTimer(): the returned [end]
    function is represented by the start time it closes over. *)
Definition startTimer : M Z :=
  fault startTimer_fault;;
  Date_now.

(** end(labels): observe the elapsed time under the labels. *)
Definition timer_end (start : Z) (l : Labels) : M unit :=
  fault observe_fault;;
  t ← Date_now;
  modify (fun w => with_registry
    {| httpRequestCount := httpRequestCount (registry w);
       httpRequestDurationMicroseconds :=
         (httpRequestDurationMicroseconds (registry w) ++ [(l, t - start)])%list |} w).

(** httpRequestCount.inc(labels) *)
Definition httpRequestCount_inc (l : Labels) : M unit :=
  fault inc_fault;;
  modify (fun w => with_registry
    {| httpRequestCount :=
         <[l := S (default 0%nat (httpRequestCount (registry w) !! l))]>
           (httpRequestCount (registry w));
       httpRequestDurationMicroseconds := httpRequestDurationMicroseconds (registry w) |} w).

Definition register_metrics : M Registry :=
  w ← get_world;
  mret (registry w).

(** ** Express: paths, routing, sending *)

Definition lower_char (c : ascii) : ascii :=
  let n := code c in
  if (65 <=? n) && (n <=? 90) then ascii_of_N (Z.to_N (n + 32)) else c.

Fixpoint lower (s : string) : string :=
  match s with
  | String c s' => String (lower_char c) (lower s')
  | EmptyString => EmptyString
  end.

(** The text up to the first '?' or '#'. *)
Fixpoint before_query (u : string) : string :=
  match u with
  | String c u' =>
      if Ascii.eqb c "?" || Ascii.eqb c "#" then EmptyString
      else String c (before_query u')
  | EmptyString => EmptyString
  end.

Definition scheme_char (c : ascii) : bool :=
  let n := code c in
  ((97 <=? n) && (n <=? 122)) || ((65 <=? n) && (n <=? 90))
  || ((48 <=? n) && (n <=? 57)) || (n =? 43) || (n =? 45) || (n =? 46).

(** For a target of the form scheme://rest, the rest. *)
Fixpoint after_scheme (u : string) : option string :=
  match u with
  | String ":" (String "/" (String "/" r)) => Some r
  | String c u' => if scheme_char c then after_scheme u' else None
  | EmptyString => None
  end.

(** Drop the authority: the text from the first '/', '?' or '#' on. *)
Fixpoint from_path (r : string) : string :=
  match r with
  | String c r' =>
      if Ascii.eqb c "/" || Ascii.eqb c "?" || Ascii.eqb c "#" then r
      else from_path r'
  | EmptyString => EmptyString
  end.

(** req.path: the pathname of the parsed request target.  A target in
    origin form (/path?query) is cut at its query string; of a target in
    absolute form (http://host/path?query) the path is kept, "/" when
    there is none.  (The percent-escaping that the URL parser applies to
    unusual characters is not modelled.) *)
Definition pathname (u : string) : string :=
  match u with
  | String "/" _ => before_query u
  | _ =>
      match after_scheme u with
      | Some r =>
          match before_query (from_path r) with
          | EmptyString => "/"
          | p => p
          end
      | None => before_query u
      end
  end.

Definition path (req : Request) : string := pathname (url req).

Fixpoint drop_last (s : string) : string :=
  match s with
  | String c EmptyString => EmptyString
  | String c s' => String c (drop_last s')
  | EmptyString => EmptyString
  end.

Fixpoint ends_with_slash (s : string) : bool :=
  match s with
  | String "/" EmptyString => true
  | String _ s' => ends_with_slash s'
  | EmptyString => false
  end.

(** Whether a route declared with the literal path [pattern] matches:
    Express compares case-insensitively and lets one trailing slash be
    present or absent. *)
Definition route_matches (pattern p : string) : bool :=
  let pat := lower pattern in
  let q := lower p in
  if ends_with_slash pat
  then String.eqb q pat || String.eqb q (drop_last pat)
  else String.eqb q pat || String.eqb q (pat +:+ "/").

(** res.send / res.end / res.status(code).json: the response goes out. *)
Definition res_send (code : Z) (b : Body) : M Response :=
  let r := {| statusCode := code; body := b |} in
  trace (Send r);;
  mret r.

(** JSON.stringify as a value: NaN becomes null, a Date its ISO string,
    and properties whose value is undefined are left out. *)
Fixpoint to_json (v : jsval) : jsval :=
  match v with
  | VNum JNaN => VNull
  | VDate t => VIso t
  | VObj fs =>
      VObj ((fix props (l : list (string * jsval)) : list (string * jsval) :=
               match l with
               | [] => []
               | (k, VUndefined) :: l' => props l'
               | (k, x) :: l' => (k, to_json x) :: props l'
               end) fs)
  | _ => v
  end.

(** res.json(v) sends the JSON text of [v]. *)
Definition res_json (code : Z) (v : jsval) : M Response :=
  res_send code (Json (to_json v)).

(** obj[k] = v *)
Fixpoint set_prop (k : string) (v : jsval) (fs : list (string * jsval))
  : list (string * jsval) :=
  match fs with
  | [] => [(k, v)]
  | (k', v') :: fs' =>
      if String.eqb k k' then (k, v) :: fs' else (k', v') :: set_prop k v fs'
  end.

(** ** app.js: startup *)

Definition connectDatabases : M unit :=
  try_catch
    (await redisClient_connect;;
     console_log "Connected to Redis";;
     new_MongoClient;;
     await mongoClient_connect;;
     assign_db;;
     console_log "Connected to MongoDB")
    (fun error => console_error_with "Database connection error:" error).

(** The state in which the module body starts: the Redis client is
    created and closed, [mongoClient] and [db] are undefined.
    connectDatabases() is called from it before any request arrives. *)
Definition initial_world : World :=
  {| clock := 0;
     redis := {| isOpen := false; isReady := false; data := ∅ |};
     mongo := {| mongoClient := false; connected := false; db := false;
                 visits := []; next_oid := 0 |};
     registry := {| httpRequestCount := ∅; httpRequestDurationMicroseconds := [] |};
     server := {| listening := true; in_flight := 0; close_pending := false |};
     console := [];
     calls := [] |}.

(** ** app.js: the route handlers *)

Definition metrics_handler (req : Request) : M Response :=
  r ← await register_metrics;
  res_send 200 (Exposition r).

Definition root_handler (req : Request) : M Response :=
  res_send 200 (Text "Hello World! Redis and MongoDB are connected.").

Definition redis_test (req : Request) : M Response :=
  try_catch
    (let key := "visit_count" in
     reply ← await (redisClient_get key);
     let currentCount := or_default reply (JInt 0) in
     let newCount := js_add1 (parseInt currentCount) in
     await (redisClient_set key newCount);;
     t ← Date_now;
     res_json 200 (VObj [("message", VStr "Redis test successful");
                         ("visit_count", VNum newCount);
                         ("timestamp", VIso t)]))
    (fun error =>
       res_json 500 (VObj [("error", VStr "Redis connection failed");
                           ("details", VStr (message error))])).

Definition mongo_test (req : Request) : M Response :=
  try_catch
    (collection ← db_collection "visits";
     t ← Date_now;
     let visit := [("timestamp", VDate t);
                   ("ip", VStr (ip req));
                   ("userAgent", match user_agent req with
                                 | Some ua => VStr ua
                                 | None => VUndefined
                                 end)] in
     result ← await (insertOne collection visit);
     totalVisits ← await (countDocuments collection);
     t' ← Date_now;
     res_json 200 (VObj [("message", VStr "MongoDB test successful");
                         ("insertedId", VObjectId result);
                         ("total_visits", VNum (JInt (Z.of_nat totalVisits)));
                         ("timestamp", VIso t')]))
    (fun error =>
       res_json 500 (VObj [("error", VStr "MongoDB connection failed");
                           ("details", VStr (message error))])).

(** The [health] object of the health check. *)
Record Health := {
  status : string;
  timestamp : Z;
  services : list (string * jsval);
}.

Definition set_service (k v : string) (h : Health) : Health :=
  {| status := status h; timestamp := timestamp h;
     services := set_prop k (VStr v) (services h) |}.

Definition set_status (s : string) (h : Health) : Health :=
  {| status := s; timestamp := timestamp h; services := services h |}.

Definition health_json (h : Health) : jsval :=
  VObj [("status", VStr (status h));
        ("timestamp", VIso (timestamp h));
        ("services", VObj (services h))].

Definition check_redis (health : Health) : M Health :=
  try_catch
    (await redisClient_ping;;
     mret (set_service "redis" "connected" health))
    (fun error =>
       mret (set_status "DEGRADED" (set_service "redis" "disconnected" health))).

Definition check_mongodb (health : Health) : M Health :=
  try_catch
    (await mongoClient_admin_ping;;
     mret (set_service "mongodb" "connected" health))
    (fun error =>
       mret (set_status "DEGRADED" (set_service "mongodb" "disconnected" health))).

Definition health_handler (req : Request) : M Response :=
  t ← Date_now;
  let health := {| status := "OK"; timestamp := t; services := [] |} in
  health ← check_redis health;
  health ← check_mongodb health;
  res_json 200 (health_json health).

Definition crash_handler (req : Request) : M Response :=
  res_send 200 (Text "Service is crashing...");;
  console_error "Service is crashing...";;
  process_exit 1.

(** ** app.js: the metrics middleware and the application *)

(** The label object built in the finish listener. *)
Definition labels (req : Request) (res : Response) : Labels :=
  (method req, path req, statusCode res).

(** The listener registered with res.on('finish'). *)
Definition on_finish (end_ : Z) (req : Request) (res : Response) : M unit :=
  httpRequestCount_inc (labels req res);;
  timer_end end_ (labels req res).

(** app.use((req, res, next) => ...): [next] is the rest of the
    pipeline; the finish listener runs once its response has gone out. *)
Definition metrics_middleware (req : Request) (next : M Response) : M Response :=
  end_ ← startTimer;
  res ← next;
  on_finish end_ req res;;
  mret res.

(** The routes in the order app.js declares them. *)
Definition routes : list (string * (Request -> M Response)) :=
  [("/metrics", metrics_handler);
   ("/", root_handler);
   ("/redis-test", redis_test);
   ("/mongo-test", mongo_test);
   ("/health", health_handler);
   ("/crash", crash_handler)].


(** app.get routes serve GET and HEAD. *)
Definition served_method (m : string) : bool :=
  String.eqb m "GET" || String.eqb m "HEAD".

(** The first declared route that matches the request, if any. *)
Definition matched_route (req : Request) : option (string * (Request -> M Response)) :=
  if served_method (method req)
  then find (fun r => route_matches (fst r) (path req)) routes
  else None.

(** The router.  [fallback] stands for the responses Express produces
    itself when no declared route serves the request (the 404 of its
    final handler, the automatic reply to OPTIONS); they are not part of
    app.js, and the development holds for any of them. *)
Definition dispatch (fallback : Request -> Response) (req : Request) : M Response :=
  match matched_route req with
  | Some (_, handler) => handler req
  | None => res_send (statusCode (fallback req)) (body (fallback req))
  end.

(** One request through the application. *)
Definition serve (fallback : Request -> Response) (req : Request) : M Response :=
  metrics_middleware req (dispatch fallback req).

(** ** app.js: graceful shutdown *)

(** server.close(callback): stop accepting connections; the callback
    waits for the open ones to end. *)
Definition server_close : M unit :=
  trace ServerClose;;
  modify (fun w => with_server {| listening := false;
                                  in_flight := in_flight (server w);
                                  close_pending := true |} w).

(** process.on('SIGTERM', async () => ...) *)
Definition on_SIGTERM : M unit :=
  console_log "SIGTERM received, shutting down gracefully";;
  server_close;;
  try_catch
    (await redisClient_quit;;
     console_log "Redis connection closed")
    (fun error => console_error_with "Error closing Redis connection:" error);;
  try_catch
    (w ← get_world;
     if mongoClient (mongo w)
     then await mongoClient_close;; console_log "MongoDB connection closed"
     else mret tt)
    (fun error => console_error_with "Error closing MongoDB connection:" error);;
  process_exit 0.

(** ** Running several requests one after the other

    A request that is left pending does not stop the server; an uncaught
    error or an exit does. *)

Fixpoint run_seq {A} (m : M A) (envs : list Env) (w : World)
  : list (Outcome A) * World :=
  match envs with
  | [] => ([], w)
  | env :: envs' =>
      match m env w with
      | (Ok a, w') => let (rs, w'') := run_seq m envs' w' in (Ok a :: rs, w'')
      | (Pending, w') => let (rs, w'') := run_seq m envs' w' in (Pending :: rs, w'')
      | (r, w') => ([r], w')
      end
  end.

(** ** What a client or an operator observes *)

(** A top-level property of a JSON body. *)
Definition body_field (k : string) (res : Response) : option jsval :=
  match body res with
  | Json (VObj fs) => field k fs
  | _ => None
  end.

(** The visit_count of an answer, when it has one. *)
Definition visit_count (o : Outcome Response) : option jsnum :=
  match o with
  | Ok res => match body_field "visit_count" res with
              | Some (VNum n) => Some n
              | _ => None
              end
  | _ => None
  end.

(** A call that was answered with HTTP 200. *)
Definition successful (o : Outcome Response) : Prop :=
  exists res, o = Ok res /\ statusCode res = 200.

Definition no_fault (f : option Error) : bool :=
  match f with
  | None => true
  | Some _ => false
  end.

(** The metrics library as prom-client behaves for the label names the
    two metrics declare: none of its three calls throws. *)
Definition prom_client (env : Env) : Prop :=
  startTimer_fault env = None /\ inc_fault env = None /\ observe_fault env = None.

(** The key the cache test counts in. *)
Definition visit_key : string := "visit_count".

(** The two dependencies and the handlers that exercise them. *)
Inductive Dependency := Cache | Store.

Definition test_handler (d : Dependency) : Request -> M Response :=
  match d with
  | Cache => redis_test
  | Store => mongo_test
  end.

(** Whether a Redis command that the outside world treats as [f] is
    rejected with an error in state [w]: always on a closed client, on
    a ready client when [f] says so, never on a client that is open but
    not ready (the command is queued). *)
Definition redis_rejects (f : option Error) (w : World) : bool :=
  negb (isOpen (redis w)) || (isReady (redis w) && negb (no_fault f)).

(** Whether the Redis client queues its commands: open, not ready. *)
Definition redis_queues (w : World) : bool :=
  isOpen (redis w) && negb (isReady (redis w)).

(** Whether no dependency operation of the handler fails, that is, is
    rejected with an error.  [operation_works d env w = false] says
    that one is: the Redis client is closed or Redis rejects a command;
    [db] is undefined or MongoDB rejects a command. *)
Definition operation_works (d : Dependency) (env : Env) (w : World) : bool :=
  match d with
  | Cache => negb (redis_rejects (redis_get_fault env) w)
             && negb (redis_rejects (redis_set_fault env) w)
  | Store => db (mongo w) && no_fault (mongo_insert_fault env)
             && no_fault (mongo_count_fault env)
  end.

(** An HTTP 500 answer whose body has an error and a details field. *)
Definition error_answer (o : Outcome Response) : Prop :=
  exists res, o = Ok res /\ statusCode res = 500
    /\ is_Some (body_field "error" res) /\ is_Some (body_field "details" res).

(** The outcome of each liveness probe, from the state of its own
    dependency alone: the ping is answered when the client is connected
    and the server does not reject it. *)
Definition redis_probe_ok (env : Env) (w : World) : bool :=
  isOpen (redis w) && isReady (redis w) && no_fault (redis_ping_fault env).

Definition mongodb_probe_ok (env : Env) (w : World) : bool :=
  mongoClient (mongo w) && connected (mongo w) && no_fault (mongo_ping_fault env).

Definition service_state (ok : bool) : string :=
  if ok then "connected" else "disconnected".





(** A computation that leaves the metrics registry alone. *)
Definition keeps_registry {A} (m : M A) : Prop :=
  forall env w, registry (m env w).2 = registry w.

(** A computation that leaves one component of the state alone. *)
Definition preserves {T A} (proj : World -> T) (m : M A) : Prop :=
  forall env w, proj (m env w).2 = proj w.


(** The two dependencies, data and handles. *)
Definition dependencies (w : World) : Redis * Mongo := (redis w, mongo w).

(** The path under which each test handler is declared. *)
Definition test_path (d : Dependency) : string :=
  match d with
  | Cache => "/redis-test"
  | Store => "/mongo-test"
  end.

(** The value of http_request_count_total under a label triple. *)
Definition count_of (l : Labels) (w : World) : nat :=
  default 0%nat (httpRequestCount (registry w) !! l).

(** The error redisClient.quit() is rejected with, if it is rejected. *)
Definition quit_error (env : Env) (w : World) : option Error :=
  if isOpen (redis w)
  then if isReady (redis w) then redis_quit_fault env else None
  else Some ClientClosedError.

(** ** Sample inputs *)

(** No command fails; a round trip takes one unit of time. *)
Definition calm : Env :=
  {| io_latency := 1; concurrent_visits := [];
     redis_connect_fault := None; redis_get_fault := None; redis_set_fault := None;
     redis_ping_fault := None; redis_quit_fault := None;
     mongo_connect_fault := None; mongo_insert_fault := None;
     mongo_count_fault := None; mongo_ping_fault := None; mongo_close_fault := None;
     startTimer_fault := None; inc_fault := None; observe_fault := None |}.

(** The state after a startup in which both connections succeeded. *)
Definition connected_world : World := (connectDatabases calm initial_world).2.

Definition get (u : string) : Request :=
  {| method := "GET"; url := u; ip := "::1"; user_agent := Some "curl/8.5.0" |}.

(** The answer of Express's final handler to an unrouted request. *)
Definition not_found (req : Request) : Response :=
  {| statusCode := 404;
     body := Text ("Cannot " +:+ method req +:+ " " +:+ path req) |}.

Definition boom : Error := {| name := "Error"; message := "boom" |}.

(** A metrics library whose counter increment throws. *)
Definition inc_throws : Env :=
  {| io_latency := 1; concurrent_visits := [];
     redis_connect_fault := None; redis_get_fault := None; redis_set_fault := None;
     redis_ping_fault := None; redis_quit_fault := None;
     mongo_connect_fault := None; mongo_insert_fault := None;
     mongo_count_fault := None; mongo_ping_fault := None; mongo_close_fault := None;
     startTimer_fault := None; inc_fault := Some boom; observe_fault := None |}.

(** The connected state with [n] requests of other clients in flight. *)
Definition world_in_flight (n : nat) : World :=
  with_server {| listening := true; in_flight := n; close_pending := false |}
    connected_world.

(** MongoDB accepts the insert and rejects the count. *)
Definition count_fails : Env :=
  {| io_latency := 1; concurrent_visits := [];
     redis_connect_fault := None; redis_get_fault := None; redis_set_fault := None;
     redis_ping_fault := None; redis_quit_fault := None;
     mongo_connect_fault := None; mongo_insert_fault := None;
     mongo_count_fault := Some boom; mongo_ping_fault := None;
     mongo_close_fault := None;
     startTimer_fault := None; inc_fault := None; observe_fault := None |}.


(** Redis rejects SET. *)
Definition set_fails : Env :=
  {| io_latency := 1; concurrent_visits := [];
     redis_connect_fault := None; redis_get_fault := None;
     redis_set_fault := Some boom;
     redis_ping_fault := None; redis_quit_fault := None;
     mongo_connect_fault := None; mongo_insert_fault := None;
     mongo_count_fault := None; mongo_ping_fault := None; mongo_close_fault := None;
     startTimer_fault := None; inc_fault := None; observe_fault := None |}.

(** Redis rejects QUIT. *)
Definition quit_fails : Env :=
  {| io_latency := 1; concurrent_visits := [];
     redis_connect_fault := None; redis_get_fault := None; redis_set_fault := None;
     redis_ping_fault := None; redis_quit_fault := Some boom;
     mongo_connect_fault := None; mongo_insert_fault := None;
     mongo_count_fault := None; mongo_ping_fault := None; mongo_close_fault := None;
     startTimer_fault := None; inc_fault := None; observe_fault := None |}.

(** Redis is unreachable at startup. *)
Definition redis_connect_fails : Env :=
  {| io_latency := 1; concurrent_visits := [];
     redis_connect_fault := Some boom; redis_get_fault := None;
     redis_set_fault := None;
     redis_ping_fault := None; redis_quit_fault := None;
     mongo_connect_fault := None; mongo_insert_fault := None;
     mongo_count_fault := None; mongo_ping_fault := None; mongo_close_fault := None;
     startTimer_fault := None; inc_fault := None; observe_fault := None |}.




(** The connected state with [v] stored under the visit counter key. *)
Definition world_with_count (v : string) : World :=
  with_redis (set_data {[visit_key := v]} (redis connected_world)) connected_world.

(** * Properties *)

(** ** Numbers and strings *)

Example parseInt_examples :
  parseInt_string "41" = JInt 41
  /\ parseInt_string "  -7up" = JInt (-7)
  /\ parseInt_string "0x1F" = JInt 31
  /\ parseInt_string "abc" = JNaN
  /\ parseInt_string "" = JNaN
  /\ parseInt_string "NaN" = JNaN
  /\ parseInt (or_default None (JInt 0)) = JInt 0
  /\ Number_toString (JInt 12) = "12"
  /\ round_double (2 ^ 53 + 1) = 2 ^ 53
  /\ round_double (2 ^ 53 + 3) = 2 ^ 53 + 4.
Proof. vm_compute. repeat split; reflexivity. Qed.

Lemma round_double_exact z : Z.abs z <= MAX_EXACT -> round_double z = z.
Proof.
  intros H. unfold round_double.
  destruct (Z.leb_spec (Z.abs z) MAX_EXACT); [reflexivity | lia].
Qed.

(** A first byte that is neither white space nor the start of a
    multi-byte sequence stops the trimming. *)
Lemma trim_start_stops c s :
  ws1 (code c) = false -> code c < 194 -> trim_start (String c s) = String c s.
Proof.
  intros Hws Hlt. cbn [trim_start]. rewrite Hws.
  assert (H2 : forall b, ws2 (code c) b = false).
  { intros b. unfold ws2. destruct (Z.eqb_spec (code c) 194); [lia | reflexivity]. }
  assert (H3 : forall a b, ws3 (code c) a b = false).
  { intros a b. unfold ws3.
    destruct (Z.eqb_spec (code c) 225); [lia |].
    destruct (Z.eqb_spec (code c) 226); [lia |].
    destruct (Z.eqb_spec (code c) 227); [lia |].
    destruct (Z.eqb_spec (code c) 239); [lia | reflexivity]. }
  destruct s as [| c2 [| c3 s3]]; rewrite ?H2, ?H3; reflexivity.
Qed.

Lemma digits_prefix_acc d acc :
  digits_prefix 10 (NilEmpty.string_of_uint d) (Z.pos acc)
  = Z.pos (Pos.of_uint_acc d acc).
Proof.
  revert acc. induction d; intros acc; cbn [NilEmpty.string_of_uint digits_prefix Pos.of_uint_acc];
    [reflexivity | ..];
    (change (radix_digit 10 _) with (Some 0) || change (radix_digit 10 _) with (Some 1)
     || change (radix_digit 10 _) with (Some 2) || change (radix_digit 10 _) with (Some 3)
     || change (radix_digit 10 _) with (Some 4) || change (radix_digit 10 _) with (Some 5)
     || change (radix_digit 10 _) with (Some 6) || change (radix_digit 10 _) with (Some 7)
     || change (radix_digit 10 _) with (Some 8) || change (radix_digit 10 _) with (Some 9));
    cbv beta iota; rewrite <- IHd; f_equal; lia.
Qed.

Lemma digits_prefix_of_uint d :
  digits_prefix 10 (NilEmpty.string_of_uint d) 0 = Z.of_N (Pos.of_uint d).
Proof.
  induction d; cbn [NilEmpty.string_of_uint digits_prefix Pos.of_uint];
    [reflexivity | ..];
    (change (radix_digit 10 _) with (Some 0) || change (radix_digit 10 _) with (Some 1)
     || change (radix_digit 10 _) with (Some 2) || change (radix_digit 10 _) with (Some 3)
     || change (radix_digit 10 _) with (Some 4) || change (radix_digit 10 _) with (Some 5)
     || change (radix_digit 10 _) with (Some 6) || change (radix_digit 10 _) with (Some 7)
     || change (radix_digit 10 _) with (Some 8) || change (radix_digit 10 _) with (Some 9));
    cbv beta iota; try exact IHd; apply digits_prefix_acc.
Qed.

Lemma parse_unsigned_decimal d :
  d <> Decimal.Nil ->
  parse_unsigned 1 (NilEmpty.string_of_uint d)
  = JInt (round_double (Z.of_N (Pos.of_uint d))).
Proof.
  intros Hd. rewrite <- digits_prefix_of_uint.
  destruct d as [| d | d | d | d | d | d | d | d | d | d]; [congruence | ..];
    try (cbn [NilEmpty.string_of_uint parse_unsigned parse_digits];
         rewrite Z.mul_1_l; reflexivity).
  destruct d; cbn [NilEmpty.string_of_uint parse_unsigned parse_digits];
    rewrite Z.mul_1_l; reflexivity.
Qed.

Lemma parseInt_string_decimal d :
  d <> Decimal.Nil ->
  parseInt_string (NilEmpty.string_of_uint d)
  = JInt (round_double (Z.of_N (Pos.of_uint d))).
Proof.
  intros Hd. rewrite <- (parse_unsigned_decimal d Hd). unfold parseInt_string.
  destruct d; [congruence | ..]; cbn [NilEmpty.string_of_uint];
    rewrite trim_start_stops by reflexivity; reflexivity.
Qed.

(** Reading back a count that the handler has written gives the count. *)
Lemma parseInt_Number_toString z :
  0 <= z <= MAX_EXACT ->
  parseInt (or_default (Some (Number_toString (JInt z))) (JInt 0)) = JInt z.
Proof.
  intros Hz. destruct z as [| p | p]; [reflexivity | | lia].
  assert (Hs : Number_toString (JInt (Z.pos p)) = NilEmpty.string_of_uint (Pos.to_uint p)).
  { cbn [Number_toString Z.to_int NilZero.string_of_int].
    unfold NilZero.string_of_uint.
    pose proof (DecimalPos.Unsigned.to_uint_nonnil p) as Hn.
    destruct (Pos.to_uint p); [congruence | reflexivity ..]. }
  rewrite Hs.
  pose proof (DecimalPos.Unsigned.to_uint_nonnil p) as Hn.
  assert (Hd : or_default (Some (NilEmpty.string_of_uint (Pos.to_uint p))) (JInt 0)
               = IsStr (NilEmpty.string_of_uint (Pos.to_uint p))).
  { destruct (Pos.to_uint p); [congruence | reflexivity ..]. }
  rewrite Hd. cbn [parseInt].
  rewrite parseInt_string_decimal by exact Hn.
  rewrite DecimalPos.Unsigned.of_to. cbn [Z.of_N].
  rewrite round_double_exact by lia. reflexivity.
Qed.

(** ** Reasoning about computations *)

Lemma turn_redis env w : redis (event_loop_turn env w) = redis w.
Proof. unfold event_loop_turn. destruct (_ && _); reflexivity. Qed.

Lemma turn_mongo env w : mongo (event_loop_turn env w) = mongo w.
Proof. unfold event_loop_turn. destruct (_ && _); reflexivity. Qed.

Lemma turn_registry env w : registry (event_loop_turn env w) = registry w.
Proof. unfold event_loop_turn. destruct (_ && _); reflexivity. Qed.

Lemma turn_calls env w : calls (event_loop_turn env w) = calls w.
Proof. unfold event_loop_turn. destruct (_ && _); reflexivity. Qed.

Lemma turn_clock env w : clock (event_loop_turn env w) = clock w + io_latency env.
Proof. unfold event_loop_turn. destruct (_ && _); reflexivity. Qed.

Lemma turn_in_flight env w :
  in_flight (server (event_loop_turn env w)) = in_flight (server w).
Proof. unfold event_loop_turn. destruct (_ && _); reflexivity. Qed.

#[local] Arguments event_loop_turn : simpl never.

Ltac unfold_ops :=
  unfold never_settles, get_env, console_error_with, redis_test, mongo_test, health_handler, check_redis, check_mongodb,
    metrics_handler, root_handler, crash_handler, register_metrics,
    res_json, res_send, redisClient_get, redisClient_set, redisClient_ping,
    redisClient_quit, redis_command, db_collection, insertOne, countDocuments,
    mongoClient_admin_ping, mongoClient_close, startTimer, timer_end, httpRequestCount_inc,
    Date_now, console_log, console_error, trace, modify, get_world, fault, throw,
    process_exit, try_catch, await, mbind, M_bind, mret, M_ret.

Ltac turn :=
  rewrite ?turn_redis, ?turn_mongo, ?turn_registry, ?turn_calls, ?turn_clock,
    ?turn_in_flight.

Ltac step := cbn; turn; cbn.

Ltac steps := repeat progress (cbn; turn).

(** ** The cache test *)

(** The handler always answers, with 200 or 500, and 200 means that the
    key was read, incremented and written back. *)
Lemma redis_test_answers req env w :
  redis_queues w = false ->
  exists res w', redis_test req env w = (Ok res, w')
    /\ (statusCode res = 200 \/ statusCode res = 500).
Proof.
  destruct w as [clk [op rdy dat] mg reg srv con cl].
  unfold redis_queues. unfold_ops. cbn. destruct op, rdy; try discriminate;
    intros _; step.
  - destruct (redis_get_fault env); step.
    + eexists _, _. split; [reflexivity | right; reflexivity].
    + destruct (redis_set_fault env); step;
        eexists _, _; (split; [reflexivity | (left; reflexivity) || (right; reflexivity)]).
  - eexists _, _. split; [reflexivity | right; reflexivity].
  - eexists _, _. split; [reflexivity | right; reflexivity].
Qed.

Lemma redis_test_200 req env w res w' :
  redis_test req env w = (Ok res, w') ->
  statusCode res = 200 ->
  let n := js_add1 (parseInt (or_default (data (redis w) !! visit_key) (JInt 0))) in
  body_field "visit_count" res = Some (to_json (VNum n))
  /\ data (redis w') = <[visit_key := Number_toString n]> (data (redis w))
  /\ calls w' = (calls w ++ [RedisGet visit_key; RedisSet visit_key (Number_toString n);
                              Send res])%list.
Proof.
  destruct w as [clk [op rdy dat] mg reg srv con cl].
  unfold_ops. cbn. destruct op, rdy; step; try discriminate.
  - destruct (redis_get_fault env); step.
    + intros [= <- <-]. discriminate.
    + destruct (redis_set_fault env); step; intros [= <- <-]; [discriminate |].
      intros _. step. rewrite <- !app_assoc. repeat split; reflexivity.
  - intros [= <- <-]. discriminate.
  - intros [= <- <-]. discriminate.
Qed.

Lemma successful_head {A} (m : M A) env envs w o w1 :
  m env w = (o, w1) ->
  (run_seq m (env :: envs) w).1
  = match o with
    | Ok a => Ok a :: (run_seq m envs w1).1
    | Pending => Pending :: (run_seq m envs w1).1
    | r => [r]
    end.
Proof.
  intros H. cbn [run_seq]. rewrite H.
  destruct o; try reflexivity; destruct (run_seq m envs w1); reflexivity.
Qed.

Lemma successful_tail {A} (m : M A) env envs w o w1 :
  m env w = (o, w1) ->
  (run_seq m (env :: envs) w).2
  = match o with
    | Ok a => (run_seq m envs w1).2
    | Pending => (run_seq m envs w1).2
    | _ => w1
    end.
Proof.
  intros H. cbn [run_seq]. rewrite H.
  destruct o; try reflexivity; destruct (run_seq m envs w1); reflexivity.
Qed.

(** Successful calls count upwards from whatever integer the key holds. *)
Lemma redis_test_counts_from req envs : forall w k,
  0 <= k ->
  k + Z.of_nat (length envs) <= MAX_EXACT ->
  parseInt (or_default (data (redis w) !! visit_key) (JInt 0)) = JInt k ->
  Forall successful (run_seq (redis_test req) envs w).1 ->
  map visit_count (run_seq (redis_test req) envs w).1
  = map (fun i => Some (JInt i)) (seqZ (k + 1) (Z.of_nat (length envs)))
  /\ (envs <> [] ->
      data (redis (run_seq (redis_test req) envs w).2) !! visit_key
      = Some (Number_toString (JInt (k + Z.of_nat (length envs))))).
Proof.
  induction envs as [| env envs IH]; intros w k Hk Hmax Hcur Hall.
  - split; [reflexivity | congruence].
  - destruct (redis_test req env w) as [o w1] eqn:Hrun.
    rewrite (successful_head _ _ _ _ _ _ Hrun) in Hall |- *.
    rewrite (successful_tail _ _ _ _ _ _ Hrun).
    cbn [length] in Hmax |- *.
    destruct o as [res | e | c |];
      try (apply Forall_cons in Hall as [(res' & Heq & _) _]; discriminate).
    apply Forall_cons in Hall as [(res' & [= <-] & H200) Hall].
    destruct (redis_test_200 _ _ _ _ _ Hrun H200) as (Hbody & Hdata & _).
    rewrite Hcur in Hbody, Hdata. cbn [js_add1] in Hbody, Hdata.
    rewrite round_double_exact in Hbody, Hdata by lia.
    assert (Hnext : parseInt (or_default (data (redis w1) !! visit_key) (JInt 0))
                    = JInt (k + 1)).
    { rewrite Hdata, lookup_insert_eq. apply parseInt_Number_toString. lia. }
    destruct (IH w1 (k + 1) ltac:(lia) ltac:(lia) Hnext Hall) as [IHc IHd].
    split.
    + rewrite seqZ_cons by lia. cbn [map visit_count]. rewrite Hbody. f_equal.
      rewrite IHc. f_equal. f_equal; lia.
    + intros _. destruct envs as [| env' envs'].
      * cbn [run_seq snd length]. rewrite Hdata, lookup_insert_eq.
        replace (k + Z.of_nat 1) with (k + 1) by lia. reflexivity.
      * rewrite IHd by congruence.
        replace (k + 1 + Z.of_nat (length (env' :: envs')))
          with (k + Z.of_nat (S (length (env' :: envs')))) by lia.
        reflexivity.
Qed.

(** C4. From a clean state (the key visit_count absent), N sequential
    successful calls of the /redis-test handler return the visit counts
    1, 2, ..., N in this order, and leave N stored under the key: each
    call reads the key (0 when absent), adds one, writes the result back
    and returns it.  N ranges over the counts a JavaScript number holds
    exactly (up to 2^53). *)
Theorem redis_test_counts_visits req (envs : list Env) (w : World) :
  data (redis w) !! visit_key = None ->
  Z.of_nat (length envs) <= MAX_EXACT ->
  Forall successful (run_seq (redis_test req) envs w).1 ->
  map visit_count (run_seq (redis_test req) envs w).1
  = map (fun i => Some (JInt i)) (seqZ 1 (Z.of_nat (length envs)))
  /\ (envs <> [] ->
      data (redis (run_seq (redis_test req) envs w).2) !! visit_key
      = Some (Number_toString (JInt (Z.of_nat (length envs))))).
Proof.
  intros Hclean Hmax Hall.
  apply (redis_test_counts_from req envs w 0); try lia; try assumption.
  rewrite Hclean. reflexivity.
Qed.

(** C4, at three calls. *)
Lemma redis_test_counts_visits_witness :
  data (redis connected_world) !! visit_key = None
  /\ Z.of_nat (length [calm; calm; calm]) <= MAX_EXACT
  /\ Forall successful (run_seq (redis_test (get "/redis-test")) [calm; calm; calm]
                         connected_world).1
  /\ map visit_count (run_seq (redis_test (get "/redis-test")) [calm; calm; calm]
                         connected_world).1
     = [Some (JInt 1); Some (JInt 2); Some (JInt 3)].
Proof.
  assert (H1 : data (redis connected_world) !! visit_key = None) by reflexivity.
  assert (H2 : Z.of_nat (length [calm; calm; calm]) <= MAX_EXACT)
    by (vm_compute; discriminate).
  assert (H3 : Forall successful
                 (run_seq (redis_test (get "/redis-test")) [calm; calm; calm]
                    connected_world).1).
  { vm_compute. repeat constructor; eexists; split; reflexivity. }
  split; [exact H1 |]. split; [exact H2 |]. split; [exact H3 |].
  exact (proj1 (redis_test_counts_visits (get "/redis-test") [calm; calm; calm]
                  connected_world H1 H2 H3)).
Defined.

(** ** Corrupt counter values *)

(** C10 as stated fails for the empty string: it does not parse as an
    integer, yet the handler treats it like an absent key, answers with
    visit_count 1 and overwrites it. *)
Lemma redis_test_resets_empty_string :
  parseInt_string "" = JNaN
  /\ visit_count (redis_test (get "/redis-test") calm (world_with_count "")).1
     = Some (JInt 1)
  /\ data (redis (redis_test (get "/redis-test") calm (world_with_count "")).2)
       !! visit_key = Some "1".
Proof. vm_compute. repeat split; reflexivity. Qed.

(** C10, amended.  When the key holds a non-empty string that parseInt
    maps to NaN, and GET and SET go through, the handler answers 200;
    its visit_count is NaN, which the JSON body carries as null, and the
    string "NaN" is written back to the key. *)
Theorem redis_test_keeps_unparsable_value req env w s :
  isOpen (redis w) = true ->
  isReady (redis w) = true ->
  redis_get_fault env = None ->
  redis_set_fault env = None ->
  data (redis w) !! visit_key = Some s ->
  s <> "" ->
  parseInt_string s = JNaN ->
  exists res w',
    redis_test req env w = (Ok res, w')
    /\ statusCode res = 200
    /\ body_field "visit_count" res = Some VNull
    /\ data (redis w') !! visit_key = Some "NaN".
Proof.
  intros Ho Hy Hg Hs Hv Hne Hnan.
  assert (Hq : redis_queues w = false) by (unfold redis_queues; rewrite Ho, Hy; reflexivity).
  destruct (redis_test_answers req env w Hq) as (res & w' & Hrun & Hcode).
  exists res, w'. split; [exact Hrun |].
  assert (H200 : statusCode res = 200).
  { destruct Hcode as [H | H]; [exact H | exfalso].
    revert Hrun H. destruct w as [clk [op rdy dat] mg reg srv con cl].
    cbn in Ho, Hy. subst op rdy. unfold_ops. cbn. rewrite Hg. step. rewrite Hs. step.
    intros [= <- <-]. discriminate. }
  split; [exact H200 |].
  destruct (redis_test_200 _ _ _ _ _ Hrun H200) as (Hbody & Hdata & _).
  assert (Hn : parseInt (or_default (data (redis w) !! visit_key) (JInt 0)) = JNaN).
  { rewrite Hv. destruct s; [congruence | exact Hnan]. }
  rewrite Hn in Hbody, Hdata. split; [exact Hbody |].
  rewrite Hdata. apply lookup_insert_eq.
Qed.

Lemma redis_test_keeps_unparsable_value_witness :
  exists res w',
    redis_test (get "/redis-test") calm (world_with_count "abc") = (Ok res, w')
    /\ statusCode res = 200
    /\ body_field "visit_count" res = Some VNull
    /\ data (redis w') !! visit_key = Some "NaN".
Proof.
  apply (redis_test_keeps_unparsable_value (get "/redis-test") calm
           (world_with_count "abc") "abc");
    solve [reflexivity | discriminate].
Defined.

(** ** Failing dependencies *)

Lemma redis_test_failure req env w :
  operation_works Cache env w = false -> error_answer (redis_test req env w).1.
Proof.
  destruct w as [clk [op rdy dat] mg reg srv con cl].
  unfold operation_works, redis_rejects, error_answer. unfold_ops. cbn.
  destruct op, rdy; step; try discriminate.
  - destruct (redis_get_fault env); step.
    + intros _. eexists. repeat split; eexists; reflexivity.
    + destruct (redis_set_fault env); step; [| discriminate].
      intros _. eexists. repeat split; eexists; reflexivity.
  - intros _. eexists. repeat split; eexists; reflexivity.
  - intros _. eexists. repeat split; eexists; reflexivity.
Qed.

Lemma mongo_test_failure req env w :
  operation_works Store env w = false -> error_answer (mongo_test req env w).1.
Proof.
  destruct w as [clk rd [mc cn d vs oid] reg srv con cl].
  unfold operation_works, error_answer. unfold_ops. cbn.
  destruct d; step.
  - destruct (mongo_insert_fault env); step.
    + intros _. eexists. repeat split; eexists; reflexivity.
    + destruct (mongo_count_fault env); step; [| discriminate].
      intros _. eexists. repeat split; eexists; reflexivity.
  - intros _. eexists. repeat split; eexists; reflexivity.
Qed.




(** ** The store test *)




(** ** The health check *)

Ltac health_cases env w :=
  destruct w as [clk [op rdy dat] [mc cn d vs oid] reg srv con cl];
  unfold redis_queues, redis_probe_ok, mongodb_probe_ok, body_field;
  unfold_ops; cbn;
  destruct op, rdy, mc, cn; step;
  destruct (redis_ping_fault env) eqn:Hr, (mongo_ping_fault env) eqn:Hm;
  repeat progress (cbn; turn; rewrite ?Hr, ?Hm).




(** C5. The two probes of /health are independent: the Redis ping is
    always issued, the MongoDB ping is issued whenever the client handle
    exists, whatever the Redis probe did, and each service field reports
    the outcome of its own probe only: when the Redis ping fails, with
    any error, the MongoDB probe still runs, and the other way round.
    (A Redis ping that is queued for ever raises no error; nothing runs
    after it.) *)
Theorem health_probes_are_independent req env w :
  if redis_queues w
  then (health_handler req env w).1 = Pending
       /\ calls (health_handler req env w).2 = (calls w ++ [RedisPing])%list
  else
  exists res w' svc,
    health_handler req env w = (Ok res, w')
    /\ body_field "services" res = Some (VObj svc)
    /\ field "redis" svc = Some (VStr (service_state (redis_probe_ok env w)))
    /\ field "mongodb" svc = Some (VStr (service_state (mongodb_probe_ok env w)))
    /\ calls w' = (calls w ++ [RedisPing]
                     ++ (if mongoClient (mongo w) then [MongoPing] else [])
                     ++ [Send res])%list.
Proof.
  health_cases env w;
    try (split; reflexivity);
    do 3 eexists;
    (split; [reflexivity |]); (split; [reflexivity |]); (split; [reflexivity |]);
    (split; [reflexivity |]); rewrite <- ?app_assoc; reflexivity.
Qed.

(** ** The metrics middleware *)

Lemma keeps_ret {A} (a : A) : keeps_registry (mret a).
Proof. intros env w. reflexivity. Qed.

Lemma keeps_bind {A B} (m : M A) (k : A -> M B) :
  keeps_registry m -> (forall a, keeps_registry (k a)) -> keeps_registry (m ≫= k).
Proof.
  intros Hm Hk env w. unfold mbind, M_bind.
  specialize (Hm env w). destruct (m env w) as [[a | e | c |] w1]; cbn in *;
    [rewrite Hk | ..]; exact Hm.
Qed.

Lemma keeps_try_catch {A} (m : M A) (h : Error -> M A) :
  keeps_registry m -> (forall e, keeps_registry (h e)) -> keeps_registry (try_catch m h).
Proof.
  intros Hm Hh env w. unfold try_catch.
  specialize (Hm env w). destruct (m env w) as [[a | e | c |] w1]; cbn in *;
    [| rewrite Hh | |]; exact Hm.
Qed.

Lemma keeps_await {A} (m : M A) : keeps_registry m -> keeps_registry (await m).
Proof.
  intros Hm env w. unfold await. specialize (Hm env w).
  destruct (m env w) as [r w1]. cbn in *. rewrite turn_registry. exact Hm.
Qed.

Lemma keeps_modify (f : World -> World) :
  (forall w, registry (f w) = registry w) -> keeps_registry (modify f).
Proof. intros Hf env w. apply Hf. Qed.

Lemma keeps_fault f : keeps_registry (fault f).
Proof. intros env w. unfold fault. destruct (f env); reflexivity. Qed.

Lemma keeps_throw {A} e : keeps_registry (@throw A e).
Proof. intros env w. reflexivity. Qed.

Lemma keeps_exit {A} c : keeps_registry (@process_exit A c).
Proof. intros env w. reflexivity. Qed.

Lemma keeps_get_world : keeps_registry get_world.
Proof. intros env w. reflexivity. Qed.

Lemma keeps_Date_now : keeps_registry Date_now.
Proof. intros env w. reflexivity. Qed.

Create HintDb keeps.
#[local] Hint Resolve keeps_ret keeps_bind keeps_try_catch keeps_await keeps_fault
  keeps_throw keeps_exit keeps_get_world keeps_Date_now : keeps.

Ltac keeps :=
  repeat first
    [ progress intros
    | apply keeps_bind
    | apply keeps_try_catch
    | apply keeps_await
    | apply keeps_modify; intros; reflexivity
    | solve [auto with keeps]
    | match goal with
      | |- keeps_registry (if ?b then _ else _) => destruct b
      | |- keeps_registry (match ?x with _ => _ end) => destruct x
      end ].

Lemma keeps_res_send code b : keeps_registry (res_send code b).
Proof. unfold res_send, trace. keeps. Qed.

Lemma keeps_redis_test req : keeps_registry (redis_test req).
Proof.
  unfold redis_test, res_json, res_send, redisClient_get, redisClient_set,
    redis_command, trace. keeps.
Qed.

Lemma keeps_mongo_test req : keeps_registry (mongo_test req).
Proof.
  unfold mongo_test, res_json, res_send, db_collection, insertOne, countDocuments,
    trace. keeps.
Qed.

Lemma keeps_health_handler req : keeps_registry (health_handler req).
Proof.
  unfold health_handler, check_redis, check_mongodb, res_json, res_send,
    redisClient_ping, redis_command, mongoClient_admin_ping, trace. keeps.
Qed.

Lemma keeps_metrics_handler req : keeps_registry (metrics_handler req).
Proof. unfold metrics_handler, register_metrics, res_send, trace. keeps. Qed.

Lemma keeps_root_handler req : keeps_registry (root_handler req).
Proof. unfold root_handler, res_send, trace. keeps. Qed.

Lemma keeps_crash_handler req : keeps_registry (crash_handler req).
Proof. unfold crash_handler, res_send, console_error, console_log, trace. keeps. Qed.

(** A served request whose path is spelled like a declared route reaches
    the handler of that route. *)
Lemma dispatch_declared_route fallback req :
  served_method (method req) = true ->
  (path req = "/redis-test" -> dispatch fallback req = redis_test req)
  /\ (path req = "/mongo-test" -> dispatch fallback req = mongo_test req)
  /\ (path req = "/health" -> dispatch fallback req = health_handler req).
Proof.
  intros Hm. unfold dispatch, matched_route. rewrite Hm.
  repeat split; intros ->; reflexivity.
Qed.

(** No handler, and no answer of the framework, touches the registry. *)
Lemma keeps_dispatch fallback req : keeps_registry (dispatch fallback req).
Proof.
  unfold dispatch, matched_route, routes.
  destruct (served_method (method req)); [| apply keeps_res_send].
  cbn [find fst].
  repeat match goal with
         | |- context [if route_matches ?p ?q then _ else _] =>
             destruct (route_matches p q)
         end;
    auto using keeps_res_send, keeps_redis_test, keeps_mongo_test,
      keeps_health_handler, keeps_metrics_handler, keeps_root_handler,
      keeps_crash_handler.
Qed.

(** C1 as stated fails for /crash: the route sends a complete response
    with status 200 and ends the process before the finish listener
    runs, so the request is in neither metric. *)
Lemma crash_response_is_not_recorded :
  (serve not_found (get "/crash") calm connected_world).1 = Exit 1
  /\ calls (serve not_found (get "/crash") calm connected_world).2
     = (calls connected_world
        ++ [Send {| statusCode := 200; body := Text "Service is crashing..." |}])%list
  /\ httpRequestCount
       (registry (serve not_found (get "/crash") calm connected_world).2)
     !! ("GET", "/crash", 200) = None
  /\ httpRequestDurationMicroseconds
       (registry (serve not_found (get "/crash") calm connected_world).2) = [].
Proof. vm_compute. repeat split; reflexivity. Qed.

(** C1, amended.  Under prom-client, every request whose handler returns
    after its response is sent is recorded exactly once in each metric:
    the counter of its label triple goes up by one (no other counter
    changes), and the histogram receives one observation, the elapsed
    time, under the same triple, which is the request's method, its path
    and the final status code. *)
Theorem completed_request_is_recorded_once fallback req env w res w1 :
  prom_client env ->
  dispatch fallback req env w = (Ok res, w1) ->
  exists w',
    serve fallback req env w = (Ok res, w')
    /\ labels req res = (method req, path req, statusCode res)
    /\ httpRequestCount (registry w')
       = <[labels req res :=
             S (default 0%nat (httpRequestCount (registry w) !! labels req res))]>
           (httpRequestCount (registry w))
    /\ httpRequestDurationMicroseconds (registry w')
       = (httpRequestDurationMicroseconds (registry w)
          ++ [(labels req res, clock w1 - clock w)])%list.
Proof.
  intros (Hst & Hinc & Hobs) Hrun.
  pose proof (keeps_dispatch fallback req env w) as Hreg.
  rewrite Hrun in Hreg. cbn in Hreg.
  unfold serve, metrics_middleware, on_finish, startTimer, httpRequestCount_inc, timer_end,
    Date_now, fault, modify, mbind, M_bind, mret, M_ret.
  rewrite Hst, Hrun, Hinc, Hobs. cbn. rewrite Hreg.
  eexists. repeat split.
Qed.

Lemma completed_request_is_recorded_once_witness :
  prom_client calm
  /\ exists res w1 w',
       dispatch not_found (get "/health") calm connected_world = (Ok res, w1)
       /\ serve not_found (get "/health") calm connected_world = (Ok res, w')
       /\ statusCode res = 200
       /\ httpRequestCount (registry w') !! ("GET", "/health", 200) = Some 1%nat.
Proof.
  assert (Hp : prom_client calm) by (repeat split).
  split; [exact Hp |].
  assert (Hd : exists res w1,
             dispatch not_found (get "/health") calm connected_world = (Ok res, w1)
             /\ statusCode res = 200).
  { eexists _, _. split; [vm_compute; reflexivity | reflexivity]. }
  destruct Hd as (res & w1 & Hd & H200).
  destruct (completed_request_is_recorded_once not_found (get "/health") calm
              connected_world res w1 Hp Hd) as (w' & Hs & Hl & Hc & _).
  exists res, w1, w'. split; [exact Hd |]. split; [exact Hs |]. split; [exact H200 |].
  rewrite Hc, Hl, H200. vm_compute. reflexivity.
Defined.

(** C8 as stated fails: when the counter increment throws, the finish
    listener throws too, and the observation is skipped. *)
Lemma metric_error_escapes_the_middleware :
  (serve not_found (get "/") inc_throws connected_world).1 = Throw boom
  /\ httpRequestDurationMicroseconds
       (registry (serve not_found (get "/") inc_throws connected_world).2) = [].
Proof. vm_compute. split; reflexivity. Qed.

(** C8, amended.  The middleware has no error handling: a request ends
    the way its handler ends it when the three calls into the metrics
    library return normally; an error thrown by startTimer, by inc or by
    the timer's end function is the outcome of the request's callbacks
    instead. *)
Theorem middleware_passes_metric_errors_on fallback req env w :
  (serve fallback req env w).1
  = match startTimer_fault env with
    | Some e => Throw e
    | None =>
        match (dispatch fallback req env w).1 with
        | Ok res =>
            match inc_fault env with
            | Some e => Throw e
            | None =>
                match observe_fault env with
                | Some e => Throw e
                | None => Ok res
                end
            end
        | r => r
        end
    end.
Proof.
  unfold serve, metrics_middleware, on_finish, startTimer, httpRequestCount_inc, timer_end,
    Date_now, fault, modify, mbind, M_bind, mret, M_ret.
  destruct (startTimer_fault env); [reflexivity |].
  destruct (dispatch fallback req env w) as [[res | e | c |] w1]; cbn; try reflexivity.
  destruct (inc_fault env); [reflexivity |].
  destruct (observe_fault env); reflexivity.
Qed.

(** ** The route label *)






(** A target in absolute form is served and labelled by its path. *)
Example absolute_form_target :
  path (get "http://example.com/health?probe=1") = "/health"
  /\ path (get "http://example.com") = "/"
  /\ path (get "/a/b#top") = "/a/b".
Proof. repeat split; reflexivity. Qed.

(** ** Shutdown *)

(** X16. While the Redis client is ready or closed, the SIGTERM handler
    closes the listener, then the Redis handle, then the MongoDB handle
    when there is one, whatever is rejected on the way, and exits with
    code 0.  While the client is open but not ready, quit() never
    settles: the handler stops there, and neither mongoClient.close nor
    process.exit is reached. *)
Lemma sigterm_closes_handles_and_exits env w :
  if redis_queues w
  then (on_SIGTERM env w).1 = Pending
       /\ calls (on_SIGTERM env w).2 = (calls w ++ [ServerClose; RedisQuit])%list
  else (on_SIGTERM env w).1 = Exit 0
       /\ calls (on_SIGTERM env w).2
          = (calls w ++ [ServerClose; RedisQuit]
             ++ (if mongoClient (mongo w) then [MongoClose] else []))%list.
Proof.
  destruct w as [clk [op rdy dat] [mc cn d vs oid] reg [li fl cp] con cl].
  destruct env as [lat cv rc rg rs rp rq mc' mi mn mp mx st ic ob].
  cbn [calls mongo mongoClient redis_queues redis isOpen isReady].
  change [ServerClose; RedisQuit] with ([ServerClose] ++ [RedisQuit])%list.
  destruct op, rdy, mc, fl, rq, mx; cbn [andb negb];
    rewrite ?app_nil_r, ?app_assoc; vm_compute; repeat split.
Qed.

(** C9 fails on the code.  With one request still in flight when SIGTERM
    arrives, the handler closes both dependency handles and exits with
    code 0 while that request is still open: the callback of
    server.close never runs, nothing waits for the drain. *)
Theorem sigterm_exits_with_a_request_in_flight :
  (on_SIGTERM calm (world_in_flight 1)).1 = Exit 0
  /\ in_flight (server (on_SIGTERM calm (world_in_flight 1)).2) = 1%nat
  /\ close_pending (server (on_SIGTERM calm (world_in_flight 1)).2) = true
  /\ calls (on_SIGTERM calm (world_in_flight 1)).2
     = (calls (world_in_flight 1) ++ [ServerClose; RedisQuit; MongoClose])%list
  /\ console (on_SIGTERM calm (world_in_flight 1)).2
     = (console (world_in_flight 1)
        ++ ["SIGTERM received, shutting down gracefully";
            "Redis connection closed";
            "MongoDB connection closed"])%list.
Proof. vm_compute. repeat split; reflexivity. Qed.

(** With no request in flight the callback does run before the exit. *)
Example sigterm_on_an_idle_server :
  console (on_SIGTERM calm (world_in_flight 0)).2
  = (console (world_in_flight 0)
     ++ ["SIGTERM received, shutting down gracefully";
         "HTTP server closed";
         "Redis connection closed";
         "MongoDB connection closed"])%list.
Proof. vm_compute. reflexivity. Qed.

(** * Further properties of app.js *)

(** ** Frame rules *)

Section Frame.
Context {T : Type} (proj : World -> T).
Hypothesis proj_turn : forall env w, proj (event_loop_turn env w) = proj w.

Lemma preserves_ret {A} (a : A) : preserves proj (mret a).
Proof. intros env w. reflexivity. Qed.

Lemma preserves_bind {A B} (m : M A) (k : A -> M B) :
  preserves proj m -> (forall a, preserves proj (k a)) -> preserves proj (m ≫= k).
Proof.
  intros Hm Hk env w. unfold mbind, M_bind.
  specialize (Hm env w). destruct (m env w) as [[a | e | c |] w1]; cbn in *;
    [rewrite Hk | ..]; exact Hm.
Qed.

Lemma preserves_try_catch {A} (m : M A) (h : Error -> M A) :
  preserves proj m -> (forall e, preserves proj (h e)) ->
  preserves proj (try_catch m h).
Proof.
  intros Hm Hh env w. unfold try_catch.
  specialize (Hm env w). destruct (m env w) as [[a | e | c |] w1]; cbn in *;
    [| rewrite Hh | |]; exact Hm.
Qed.

Lemma preserves_await {A} (m : M A) : preserves proj m -> preserves proj (await m).
Proof.
  intros Hm env w. unfold await. specialize (Hm env w).
  destruct (m env w) as [r w1]. cbn in *. rewrite proj_turn. exact Hm.
Qed.

Lemma preserves_modify (f : World -> World) :
  (forall w, proj (f w) = proj w) -> preserves proj (modify f).
Proof. intros Hf env w. apply Hf. Qed.

Lemma preserves_fault f : preserves proj (fault f).
Proof. intros env w. unfold fault. destruct (f env); reflexivity. Qed.

Lemma preserves_throw {A} e : preserves proj (@throw A e).
Proof. intros env w. reflexivity. Qed.

Lemma preserves_exit {A} c : preserves proj (@process_exit A c).
Proof. intros env w. reflexivity. Qed.

Lemma preserves_get_world : preserves proj get_world.
Proof. intros env w. reflexivity. Qed.

Lemma preserves_Date_now : preserves proj Date_now.
Proof. intros env w. reflexivity. Qed.
End Frame.


Lemma turn_dependencies env w :
  dependencies (event_loop_turn env w) = dependencies w.
Proof. unfold dependencies. rewrite turn_redis, turn_mongo. reflexivity. Qed.

(** Decompose a computation along its syntax; what remains are the
    state updates that do touch the component. *)
Ltac frame turn_lemma :=
  repeat first
    [ progress intros
    | apply preserves_bind
    | apply preserves_try_catch
    | apply (preserves_await _ turn_lemma)
    | apply preserves_modify; intros; reflexivity
    | apply preserves_ret
    | apply preserves_fault
    | apply preserves_throw
    | apply preserves_exit
    | apply preserves_get_world
    | apply preserves_Date_now
    | match goal with
      | |- preserves _ (if ?b then _ else _) => destruct b
      | |- preserves _ (match ?x with _ => _ end) => destruct x
      end ].

Ltac unfold_handlers :=
  unfold redis_test, mongo_test, health_handler, check_redis, check_mongodb,
    metrics_handler, root_handler, crash_handler, register_metrics,
    res_json, res_send, redisClient_get, redisClient_set, redisClient_ping,
    redis_command, db_collection, insertOne, countDocuments,
    mongoClient_admin_ping, console_error, console_log, trace.


(** ** Requests and the dependency handles *)


(** X2. The health check only reads: it leaves the Redis keys, the
    visits collection and both handles exactly as they were. *)
Theorem health_check_is_read_only req env w :
  redis (health_handler req env w).2 = redis w
  /\ mongo (health_handler req env w).2 = mongo w.
Proof.
  assert (H : preserves dependencies (health_handler req))
    by (unfold_handlers; frame turn_dependencies).
  specialize (H env w). unfold dependencies in H.
  split; congruence.
Qed.

(** X3. The two test handlers are isolated from each other: /redis-test
    never touches MongoDB, /mongo-test never touches Redis. *)
Theorem test_handlers_touch_one_dependency (d : Dependency) req env w :
  match d with
  | Cache => mongo (test_handler d req env w).2 = mongo w
  | Store => redis (test_handler d req env w).2 = redis w
  end.
Proof.
  destruct d; cbn [test_handler].
  - revert env w. change (preserves mongo (redis_test req)).
    unfold_handlers; frame turn_mongo.
  - revert env w. change (preserves redis (mongo_test req)).
    unfold_handlers; frame turn_redis.
Qed.

(** X4. Only the middleware writes metrics: no route handler, and no
    answer of the framework, changes the registry. *)
Theorem handlers_leave_the_registry_alone fallback req env w :
  registry (dispatch fallback req env w).2 = registry w.
Proof. apply keeps_dispatch. Qed.

(** ** Startup *)

(** X5. connectDatabases never throws, whatever fails.  The Redis
    client is open from the call of connect() on, and ready only if the
    connection succeeds.  Only then is the MongoDB client created and
    connected, and only when both succeed is [db] assigned: a failed
    Redis connection leaves [mongoClient] and [db] undefined, without
    MongoDB ever being tried. *)
Theorem startup_failures_are_not_fatal env w :
  isOpen (redis w) = false ->
  (connectDatabases env w).1 = Ok tt
  /\ isOpen (redis (connectDatabases env w).2) = true
  /\ isReady (redis (connectDatabases env w).2)
     = (if no_fault (redis_connect_fault env) then true else isReady (redis w))
  /\ mongoClient (mongo (connectDatabases env w).2)
     = (if no_fault (redis_connect_fault env) then true else mongoClient (mongo w))
  /\ db (mongo (connectDatabases env w).2)
     = (if no_fault (redis_connect_fault env) && no_fault (mongo_connect_fault env)
        then true else db (mongo w))
  /\ calls (connectDatabases env w).2
     = (calls w ++ RedisConnect
        :: (if no_fault (redis_connect_fault env) then [MongoConnect] else []))%list.
Proof.
  destruct w as [clk [op rdy dat] [mc cn d vs oid] reg [li fl cp] con cl].
  destruct env as [lat cv rc rg rs rp rq mc' mi mn mp mx st ic ob].
  cbn [calls redis_connect_fault mongo_connect_fault redis isOpen].
  intros ->.
  destruct cp, fl, rc, mc';
    cbn [no_fault andb];
    try change (RedisConnect :: [MongoConnect])
          with ([RedisConnect] ++ [MongoConnect])%list;
    rewrite ?app_assoc; vm_compute; repeat split.
Qed.

Lemma startup_failures_are_not_fatal_witness :
  isOpen (redis initial_world) = false
  /\ (connectDatabases redis_connect_fails initial_world).1 = Ok tt
  /\ isOpen (redis (connectDatabases redis_connect_fails initial_world).2) = true
  /\ isReady (redis (connectDatabases redis_connect_fails initial_world).2) = false
  /\ mongoClient (mongo (connectDatabases redis_connect_fails initial_world).2) = false.
Proof.
  split; [reflexivity |].
  destruct (startup_failures_are_not_fatal redis_connect_fails initial_world eq_refl)
    as (H1 & H2 & H3 & H4 & _).
  split; [exact H1 |]. split; [exact H2 |]. split; [exact H3 | exact H4].
Defined.



(** ** What the middleware records *)

(** The application, step by step. *)
Lemma serve_unfold fallback req env w :
  serve fallback req env w
  = match startTimer_fault env with
    | Some e => (Throw e, w)
    | None =>
        match dispatch fallback req env w with
        | (Ok res, w1) =>
            match inc_fault env with
            | Some e => (Throw e, w1)
            | None =>
                let w2 := with_registry
                  {| httpRequestCount :=
                       <[labels req res := S (count_of (labels req res) w1)]>
                         (httpRequestCount (registry w1));
                     httpRequestDurationMicroseconds :=
                       httpRequestDurationMicroseconds (registry w1) |} w1 in
                match observe_fault env with
                | Some e => (Throw e, w2)
                | None =>
                    (Ok res,
                     with_registry
                       {| httpRequestCount := httpRequestCount (registry w2);
                          httpRequestDurationMicroseconds :=
                            (httpRequestDurationMicroseconds (registry w2)
                             ++ [(labels req res, clock w2 - clock w)])%list |} w2)
                end
            end
        | (Throw e, w1) => (Throw e, w1)
        | (Exit c, w1) => (Exit c, w1)
        | (Pending, w1) => (Pending, w1)
        end
    end.
Proof.
  unfold serve, metrics_middleware, on_finish, startTimer, httpRequestCount_inc,
    timer_end, Date_now, fault, modify, mbind, M_bind, mret, M_ret, count_of.
  destruct (startTimer_fault env); [reflexivity |].
  destruct (dispatch fallback req env w) as [[res | e | c |] w1]; cbn; try reflexivity.
  destruct (inc_fault env); [reflexivity |].
  destruct (observe_fault env); reflexivity.
Qed.

Lemma count_of_insert l l' n (w : World) :
  default 0%nat (<[l := S n]> (httpRequestCount (registry w)) !! l')
  = if decide (l = l') then S n else count_of l' w.
Proof.
  unfold count_of. rewrite lookup_insert. destruct (decide (l = l')); reflexivity.
Qed.

(** X7. The metrics only grow.  Whatever a request does and whatever
    fails, no counter value decreases, and the histogram keeps all its
    observations and gains at most one. *)
Theorem metrics_only_grow fallback req env w l :
  (count_of l w <= count_of l (serve fallback req env w).2)%nat
  /\ exists new,
       httpRequestDurationMicroseconds (registry (serve fallback req env w).2)
       = (httpRequestDurationMicroseconds (registry w) ++ new)%list
       /\ (length new <= 1)%nat.
Proof.
  rewrite serve_unfold.
  pose proof (keeps_dispatch fallback req env w) as Hreg.
  destruct (startTimer_fault env).
  { split; [reflexivity | exists []; rewrite app_nil_r; split; [reflexivity | cbn; lia]]. }
  destruct (dispatch fallback req env w) as [[res | e | c |] w1]; cbn in Hreg;
    try (unfold count_of; cbn; rewrite Hreg; split;
         [reflexivity | exists []; rewrite app_nil_r; split; [reflexivity | cbn; lia]]).
  assert (Hc : count_of l w1 = count_of l w) by (unfold count_of; rewrite Hreg; reflexivity).
  destruct (inc_fault env).
  { cbn. rewrite Hc, Hreg. split;
      [reflexivity | exists []; rewrite app_nil_r; split; [reflexivity | cbn; lia]]. }
  destruct (observe_fault env); cbn; unfold count_of at 2; cbn;
    rewrite count_of_insert, Hreg;
    (split; [destruct (decide (labels req res = l)) as [-> |]; lia |]).
  - exists []. rewrite app_nil_r. split; [reflexivity | cbn; lia].
  - eexists [_]. split; [reflexivity | cbn; lia].
Qed.

(** X8. A scrape does not see itself.  The body of /metrics is the
    registry as it was when the request arrived; the request itself is
    counted only afterwards, under ("/metrics", 200). *)
Theorem scrape_does_not_count_itself fallback req env w :
  prom_client env ->
  served_method (method req) = true ->
  path req = "/metrics" ->
  exists res w',
    serve fallback req env w = (Ok res, w')
    /\ statusCode res = 200
    /\ body res = Exposition (registry w)
    /\ count_of (method req, "/metrics", 200) w'
       = S (count_of (method req, "/metrics", 200) w).
Proof.
  intros (Hst & Hinc & Hobs) Hm Hp.
  rewrite serve_unfold, Hst, Hinc, Hobs.
  assert (Hd : dispatch fallback req = metrics_handler req).
  { unfold dispatch, matched_route. rewrite Hm, Hp. reflexivity. }
  rewrite Hd. unfold labels. rewrite Hp.
  destruct w as [clk rd mg reg srv con cl].
  unfold_ops. steps.
  eexists _, _. split; [reflexivity |]. split; [reflexivity |].
  split; [reflexivity |].
  unfold count_of. cbn. rewrite lookup_insert_eq. steps. reflexivity.
Qed.

(** X9. /crash sends its response and then exits with code 1 at once:
    the finish listener never runs, so the request is in no metric. *)
Theorem crash_exits_unrecorded fallback req env w :
  startTimer_fault env = None ->
  served_method (method req) = true ->
  path req = "/crash" ->
  exists w',
    serve fallback req env w = (Exit 1, w')
    /\ registry w' = registry w
    /\ calls w'
       = (calls w ++ [Send {| statusCode := 200;
                              body := Text "Service is crashing..." |}])%list
    /\ console w' = (console w ++ ["Service is crashing..."])%list.
Proof.
  intros Hst Hm Hp.
  rewrite serve_unfold, Hst.
  assert (Hd : dispatch fallback req = crash_handler req).
  { unfold dispatch, matched_route. rewrite Hm, Hp. reflexivity. }
  rewrite Hd. destruct w as [clk rd mg reg srv con cl].
  unfold_ops. cbn. eexists. repeat split.
Qed.

(** X10. Failures are counted as such: a request to /redis-test or
    /mongo-test whose dependency operation fails is recorded under
    status_code 500 of that path. *)
Theorem failed_test_is_counted_under_500 (d : Dependency) fallback req env w :
  prom_client env ->
  served_method (method req) = true ->
  path req = test_path d ->
  operation_works d env w = false ->
  exists res w',
    serve fallback req env w = (Ok res, w')
    /\ statusCode res = 500
    /\ count_of (method req, test_path d, 500) w'
       = S (count_of (method req, test_path d, 500) w).
Proof.
  intros (Hst & Hinc & Hobs) Hm Hp Hfail.
  assert (Hd : dispatch fallback req = test_handler d req).
  { unfold dispatch, matched_route. rewrite Hm, Hp. destruct d; reflexivity. }
  assert (Herr : error_answer (test_handler d req env w).1).
  { destruct d; [apply redis_test_failure | apply mongo_test_failure]; exact Hfail. }
  pose proof (keeps_dispatch fallback req env w) as Hreg. rewrite Hd in Hreg.
  rewrite serve_unfold, Hst, Hd.
  destruct (test_handler d req env w) as [o w1]. cbn in Herr, Hreg.
  destruct Herr as (res & -> & H500 & _).
  rewrite Hinc, Hobs. cbn.
  eexists _, _. split; [reflexivity |]. split; [exact H500 |].
  unfold labels. rewrite Hp, H500.
  unfold count_of. cbn. rewrite lookup_insert_eq, Hreg. reflexivity.
Qed.

(** ** The cache counter, further *)

(** X11. A failed cache test does not count: when /redis-test answers
    500, the Redis keys are exactly as before. *)
Theorem failed_cache_test_leaves_the_counter req env w res w' :
  redis_test req env w = (Ok res, w') ->
  statusCode res = 500 ->
  data (redis w') = data (redis w).
Proof.
  destruct w as [clk [op rdy dat] mg reg srv con cl].
  unfold_ops. cbn. destruct op, rdy; step; try discriminate.
  - destruct (redis_get_fault env); step.
    + intros [= <- <-] _. steps. reflexivity.
    + destruct (redis_set_fault env); step; intros [= <- <-]; [| discriminate].
      intros _. steps. reflexivity.
  - intros [= <- <-] _. steps. reflexivity.
  - intros [= <- <-] _. steps. reflexivity.
Qed.

Lemma parse_unsigned_signed sg d :
  d <> Decimal.Nil ->
  parse_unsigned sg (NilEmpty.string_of_uint d)
  = JInt (round_double (sg * Z.of_N (Pos.of_uint d))).
Proof.
  intros Hd. rewrite <- digits_prefix_of_uint.
  destruct d as [| d | d | d | d | d | d | d | d | d | d]; [congruence | ..];
    try (cbn [NilEmpty.string_of_uint parse_unsigned parse_digits]; reflexivity).
  destruct d; cbn [NilEmpty.string_of_uint parse_unsigned parse_digits]; reflexivity.
Qed.

(** What SET writes for an integer count, GET and parseInt read back. *)
Lemma parseInt_Number_toString_signed z :
  - MAX_EXACT <= z <= MAX_EXACT ->
  parseInt (or_default (Some (Number_toString (JInt z))) (JInt 0)) = JInt z.
Proof.
  intros Hz. destruct z as [| p | p];
    [reflexivity | apply parseInt_Number_toString; lia |].
  pose proof (DecimalPos.Unsigned.to_uint_nonnil p) as Hn.
  assert (Hs : Number_toString (JInt (Z.neg p))
               = String "-" (NilEmpty.string_of_uint (Pos.to_uint p))).
  { cbn [Number_toString Z.to_int NilZero.string_of_int].
    unfold NilZero.string_of_uint.
    destruct (Pos.to_uint p); [congruence | reflexivity ..]. }
  rewrite Hs. cbn [or_default parseInt]. unfold parseInt_string.
  rewrite trim_start_stops by reflexivity.
  rewrite parse_unsigned_signed by exact Hn.
  rewrite DecimalPos.Unsigned.of_to. cbn [Z.of_N].
  rewrite round_double_exact by lia. reflexivity.
Qed.

Lemma to_json_integer x n : to_json (VNum x) = VNum (JInt n) -> x = JInt n.
Proof. destruct x; [discriminate | intros [= ->]; reflexivity]. Qed.

(** X12. Consecutive successful calls differ by one, whatever the key
    held at first: if one call returns the integer n (of magnitude
    below 2^53), the next successful call returns n + 1. *)
Theorem consecutive_counts_differ_by_one req env1 env2 w res1 w1 res2 w2 n :
  redis_test req env1 w = (Ok res1, w1) ->
  statusCode res1 = 200 ->
  body_field "visit_count" res1 = Some (VNum (JInt n)) ->
  - MAX_EXACT <= n < MAX_EXACT ->
  redis_test req env2 w1 = (Ok res2, w2) ->
  statusCode res2 = 200 ->
  body_field "visit_count" res2 = Some (VNum (JInt (n + 1))).
Proof.
  intros Hrun1 H1 Hb1 Hn Hrun2 H2.
  destruct (redis_test_200 _ _ _ _ _ Hrun1 H1) as (Hbody1 & Hdata1 & _).
  destruct (redis_test_200 _ _ _ _ _ Hrun2 H2) as (Hbody2 & _ & _).
  rewrite Hb1 in Hbody1. injection Hbody1 as Hn1.
  symmetry in Hn1. apply to_json_integer in Hn1. rewrite Hn1 in Hdata1.
  rewrite Hdata1, lookup_insert_eq in Hbody2.
  rewrite parseInt_Number_toString_signed in Hbody2 by lia.
  cbn [js_add1] in Hbody2. rewrite round_double_exact in Hbody2 by lia.
  exact Hbody2.
Qed.

Lemma consecutive_counts_differ_by_one_witness :
  exists res1 w1 res2 w2,
    redis_test (get "/redis-test") calm (world_with_count "-3") = (Ok res1, w1)
    /\ body_field "visit_count" res1 = Some (VNum (JInt (-2)))
    /\ redis_test (get "/redis-test") calm w1 = (Ok res2, w2)
    /\ body_field "visit_count" res2 = Some (VNum (JInt (-2 + 1))).
Proof.
  eexists _, _, _, _.
  split; [vm_compute; reflexivity |]. split; [reflexivity |].
  split; [vm_compute; reflexivity |].
  eapply (consecutive_counts_differ_by_one (get "/redis-test") calm calm
            (world_with_count "-3") _ _ _ _ (-2));
    [vm_compute; reflexivity | reflexivity | reflexivity
    | unfold MAX_EXACT; lia | vm_compute; reflexivity | reflexivity].
Defined.

(** A value that reads back as itself after an increment stays. *)
Lemma redis_test_fixed_point req x envs : forall w,
  js_add1 x = x ->
  parseInt (or_default (Some (Number_toString x)) (JInt 0)) = x ->
  parseInt (or_default (data (redis w) !! visit_key) (JInt 0)) = x ->
  Forall successful (run_seq (redis_test req) envs w).1 ->
  Forall (fun o => exists res,
            o = Ok res /\ body_field "visit_count" res = Some (to_json (VNum x)))
    (run_seq (redis_test req) envs w).1
  /\ (envs <> [] ->
      data (redis (run_seq (redis_test req) envs w).2) !! visit_key
      = Some (Number_toString x)).
Proof.
  induction envs as [| env envs IH]; intros w Hadd Hback Hcur Hall.
  - split; [constructor | congruence].
  - destruct (redis_test req env w) as [o w1] eqn:Hrun.
    rewrite (successful_head _ _ _ _ _ _ Hrun) in Hall |- *.
    rewrite (successful_tail _ _ _ _ _ _ Hrun).
    destruct o as [res | e | c |];
      try (apply Forall_cons in Hall as [(res' & Heq & _) _]; discriminate).
    apply Forall_cons in Hall as [(res' & [= <-] & H200) Hall].
    destruct (redis_test_200 _ _ _ _ _ Hrun H200) as (Hbody & Hdata & _).
    rewrite Hcur, Hadd in Hbody, Hdata.
    assert (Hkey : data (redis w1) !! visit_key = Some (Number_toString x)).
    { rewrite Hdata, lookup_insert_eq. reflexivity. }
    destruct (IH w1 Hadd Hback) as (IH1 & IH2); [rewrite Hkey; exact Hback | exact Hall |].
    split.
    + constructor; [exists res; split; [reflexivity | exact Hbody] | exact IH1].
    + intros _. destruct envs as [| env' envs']; [exact Hkey | apply IH2; congruence].
Qed.

(** X13. A counter that reads as NaN never recovers: every later
    successful call carries [null] as its visit_count again and writes
    "NaN" back. *)
Theorem nan_count_never_recovers req envs w :
  parseInt (or_default (data (redis w) !! visit_key) (JInt 0)) = JNaN ->
  Forall successful (run_seq (redis_test req) envs w).1 ->
  Forall (fun o => exists res,
            o = Ok res /\ body_field "visit_count" res = Some VNull)
    (run_seq (redis_test req) envs w).1
  /\ (envs <> [] ->
      data (redis (run_seq (redis_test req) envs w).2) !! visit_key = Some "NaN").
Proof.
  intros Hcur Hall.
  apply (redis_test_fixed_point req JNaN envs w); try assumption; reflexivity.
Qed.

Lemma nan_count_never_recovers_witness :
  parseInt (or_default (data (redis (world_with_count "n/a")) !! visit_key) (JInt 0))
  = JNaN
  /\ Forall (fun o => exists res,
               o = Ok res /\ body_field "visit_count" res = Some VNull)
       (run_seq (redis_test (get "/redis-test")) [calm; calm]
          (world_with_count "n/a")).1
  /\ data (redis (run_seq (redis_test (get "/redis-test")) [calm; calm]
                    (world_with_count "n/a")).2) !! visit_key = Some "NaN".
Proof.
  split; [reflexivity |].
  destruct (nan_count_never_recovers (get "/redis-test") [calm; calm]
              (world_with_count "n/a")) as (H1 & H2);
    [reflexivity
    | vm_compute; repeat constructor; eexists; split; reflexivity |].
  split; [exact H1 | apply H2; discriminate].
Defined.

(** X14. The counter stops at 2^53 = 9007199254740992: there, adding
    one gives the same number, so every further successful call
    returns 2^53 again. *)
Theorem count_stops_at_two_to_the_53 req envs w :
  data (redis w) !! visit_key = Some "9007199254740992" ->
  Forall successful (run_seq (redis_test req) envs w).1 ->
  Forall (fun o => visit_count o = Some (JInt MAX_EXACT))
    (run_seq (redis_test req) envs w).1.
Proof.
  intros Hcur Hall.
  destruct (redis_test_fixed_point req (JInt MAX_EXACT) envs w) as [Hfix _];
    try assumption.
  - vm_compute. reflexivity.
  - apply parseInt_Number_toString. unfold MAX_EXACT. lia.
  - rewrite Hcur. vm_compute. reflexivity.
  - eapply Forall_impl; [exact Hfix |].
    intros o (res & -> & Hbody). cbn [visit_count]. rewrite Hbody. reflexivity.
Qed.

Lemma count_stops_at_two_to_the_53_witness :
  data (redis (world_with_count "9007199254740992")) !! visit_key
  = Some "9007199254740992"
  /\ Forall (fun o => visit_count o = Some (JInt MAX_EXACT))
       (run_seq (redis_test (get "/redis-test")) [calm; calm]
          (world_with_count "9007199254740992")).1.
Proof.
  split; [reflexivity |].
  apply (count_stops_at_two_to_the_53 (get "/redis-test") [calm; calm]
           (world_with_count "9007199254740992")); [reflexivity |].
  vm_compute. repeat constructor; eexists; split; reflexivity.
Defined.

Lemma failed_cache_test_leaves_the_counter_witness :
  exists res w',
    redis_test (get "/redis-test") set_fails (world_with_count "7") = (Ok res, w')
    /\ statusCode res = 500
    /\ data (redis w') !! visit_key = Some "7".
Proof.
  assert (Hrun : exists res w',
             redis_test (get "/redis-test") set_fails (world_with_count "7")
             = (Ok res, w') /\ statusCode res = 500).
  { eexists _, _. split; [vm_compute; reflexivity | reflexivity]. }
  destruct Hrun as (res & w' & Hrun & H500).
  exists res, w'. split; [exact Hrun |]. split; [exact H500 |].
  rewrite (failed_cache_test_leaves_the_counter (get "/redis-test") set_fails
             (world_with_count "7") res w' Hrun H500).
  reflexivity.
Defined.

(** ** The store test, further *)

(** X15. The store test is not atomic: when the insert succeeds and the
    count is rejected, the answer is 500 although the visit has been
    stored. *)
Theorem store_test_keeps_insert_when_count_fails req env w e :
  db (mongo w) = true ->
  mongo_insert_fault env = None ->
  mongo_count_fault env = Some e ->
  error_answer (mongo_test req env w).1
  /\ exists doc,
       visits (mongo (mongo_test req env w).2) = (visits (mongo w) ++ [doc])%list
       /\ field "ip" doc = Some (VStr (ip req)).
Proof.
  intros Hdb Hi Hc. split.
  - apply mongo_test_failure. cbn. rewrite Hdb, Hi, Hc. reflexivity.
  - destruct w as [clk rd [mc cn d vs oid] reg srv con cl]. cbn in Hdb. subst d.
    unfold_ops. cbn.
    repeat progress (cbn; turn; rewrite ?Hi, ?Hc).
    eexists. split; reflexivity.
Qed.

Lemma store_test_keeps_insert_when_count_fails_witness :
  error_answer (mongo_test (get "/mongo-test") count_fails connected_world).1
  /\ length (visits (mongo (mongo_test (get "/mongo-test") count_fails
                              connected_world).2)) = 1%nat.
Proof.
  destruct (store_test_keeps_insert_when_count_fails (get "/mongo-test") count_fails
              connected_world boom eq_refl eq_refl eq_refl) as (Herr & doc & Hv & _).
  split; [exact Herr |]. rewrite Hv. reflexivity.
Defined.

(** ** Startup and shutdown, further *)

(** X17. A failing redisClient.quit() (the client is closed already,
    or QUIT is rejected) is logged with its error and nothing more: the
    Redis client is closed afterwards, MongoDB is still closed when its
    client exists, and the process still exits with code 0. *)
Theorem sigterm_logs_a_failed_quit env w e :
  quit_error env w = Some e ->
  (on_SIGTERM env w).1 = Exit 0
  /\ In (ErrorLine "Error closing Redis connection:" e)
       (console (on_SIGTERM env w).2)
  /\ ~ In (Line "Redis connection closed")
         (skipn (length (console w)) (console (on_SIGTERM env w).2))
  /\ isOpen (redis (on_SIGTERM env w).2) = false
  /\ (mongoClient (mongo w) = true -> In MongoClose (calls (on_SIGTERM env w).2)).
Proof.
  destruct w as [clk [op rdy dat] [mc cn d vs oid] reg [li fl cp] con cl].
  unfold quit_error, on_SIGTERM, server_close. unfold_ops. cbn.
  intros Hq.
  assert (Hskip : forall l : list LogEntry, skipn (length con) (con ++ l) = l).
  { intros l. rewrite drop_app_length. reflexivity. }
  destruct op; [destruct rdy; [rewrite Hq | discriminate Hq] | injection Hq as <-];
    destruct mc; step;
    unfold event_loop_turn; cbn;
    destruct fl; cbn;
    destruct (mongo_close_fault env) eqn:Hm; cbn; rewrite <- ?app_assoc;
    rewrite ?Hskip;
    (split; [reflexivity |]);
    (split; [rewrite !in_app_iff; cbn; tauto |]);
    (split; [cbn; intros H; repeat destruct H as [H | H]; try discriminate H; exact H |]);
    (split; [reflexivity |]);
    intros Hmc; try discriminate Hmc;
    rewrite !in_app_iff; cbn; tauto.
Qed.

Lemma sigterm_logs_a_failed_quit_witness :
  quit_error quit_fails connected_world = Some boom
  /\ (on_SIGTERM quit_fails connected_world).1 = Exit 0
  /\ In (ErrorLine "Error closing Redis connection:" boom)
       (console (on_SIGTERM quit_fails connected_world).2)
  /\ isOpen (redis (on_SIGTERM quit_fails connected_world).2) = false
  /\ In MongoClose (calls (on_SIGTERM quit_fails connected_world).2).
Proof.
  split; [reflexivity |].
  destruct (sigterm_logs_a_failed_quit quit_fails connected_world boom eq_refl)
    as (Hexit & Hlog & _ & Hopen & Hm).
  split; [exact Hexit |]. split; [exact Hlog |]. split; [exact Hopen |].
  apply Hm. reflexivity.
Defined.

(** ** Witnesses for the middleware properties *)

Lemma scrape_does_not_count_itself_witness :
  prom_client calm
  /\ exists res w',
       serve not_found (get "/metrics") calm connected_world = (Ok res, w')
       /\ body res = Exposition (registry connected_world)
       /\ count_of ("GET", "/metrics", 200) w' = 1%nat.
Proof.
  assert (Hp : prom_client calm) by (repeat split).
  split; [exact Hp |].
  destruct (scrape_does_not_count_itself not_found (get "/metrics") calm
              connected_world Hp eq_refl eq_refl) as (res & w' & Hs & _ & Hb & Hc).
  exists res, w'. split; [exact Hs |]. split; [exact Hb |].
  etransitivity; [exact Hc |]. vm_compute. reflexivity.
Defined.

Lemma crash_exits_unrecorded_witness :
  exists w',
    serve not_found (get "/crash") calm connected_world = (Exit 1, w')
    /\ registry w' = registry connected_world.
Proof.
  destruct (crash_exits_unrecorded not_found (get "/crash") calm connected_world
              eq_refl eq_refl eq_refl) as (w' & Hs & Hr & _).
  exists w'. split; [exact Hs | exact Hr].
Defined.

Lemma failed_test_is_counted_under_500_witness :
  prom_client set_fails
  /\ operation_works Cache set_fails connected_world = false
  /\ exists res w',
       serve not_found (get "/redis-test") set_fails connected_world = (Ok res, w')
       /\ statusCode res = 500
       /\ count_of ("GET", "/redis-test", 500) w' = 1%nat.
Proof.
  assert (Hp : prom_client set_fails) by (repeat split).
  split; [exact Hp |]. split; [reflexivity |].
  destruct (failed_test_is_counted_under_500 Cache not_found (get "/redis-test")
              set_fails connected_world Hp eq_refl eq_refl eq_refl)
    as (res & w' & Hs & H5 & Hc).
  exists res, w'. split; [exact Hs |]. split; [exact H5 |].
  etransitivity; [exact Hc |]. vm_compute. reflexivity.
Defined.
